(** * cv-maker: the tax calculator and the block relevance engine

    A shallow embedding of [backend/tax_calculator.py],
    [backend/lego_blocks.py] and [backend/cv_generator.py], followed by the
    properties of these functions that the specification states.

    Modelling conventions.
    - [decimal.Decimal] values are modelled by their exact rational value
      ([Q]); Python compares Decimals numerically, which is [Qeq] ([==])
      here.  The 28-significant-digit limit of the default decimal context
      is not modelled: sums, differences and products are exact.
    - A Python exception is a value of [exn]; a function that can raise
      returns a [result].
    - [str] values are modelled by [string] (8-bit characters); [str.lower]
      is the ASCII lowering, [x in y] on strings is [contains].
    - The [float] scores of the ranking are sums of the constants 3.0, 2.5,
      2.0, 1.5, 1.0 and 0.5: every value is a multiple of one half, which
      binary floating point adds without rounding; they are modelled in [Q]. *)

From Stdlib Require Import QArith Qminmax Lqa ZArith Lia.
From Stdlib Require Import List String Ascii Bool Permutation Sorted ListSet.
From Stdlib Require DecimalString.
Import ListNotations.

Local Open Scope Q_scope.

(** ** Python runtime: exceptions, decimals, strings *)

Module Py.

Inductive exn : Type :=
| ValueError (msg : string)
| InvalidOperation          (* decimal.InvalidOperation: 0 / 0 *)
| DivisionByZero.           (* decimal.DivisionByZero: x / 0, x <> 0 *)

Inductive result (A : Type) : Type :=
| Ok (a : A)
| Raise (e : exn).

Arguments Ok {A} a.
Arguments Raise {A} e.

Definition bind {A B : Type} (m : result A) (k : A -> result B) : result B :=
  match m with
  | Ok a => k a
  | Raise e => Raise e
  end.

Definition returns {A : Type} (m : result A) : bool :=
  match m with Ok _ => true | Raise _ => false end.

Definition Decimal : Type := Q.

(** [x > y] and [x <= y] on Decimals. *)
Definition gt (x y : Decimal) : bool := negb (Qle_bool x y).
Definition le (x y : Decimal) : bool := Qle_bool x y.

(** [x / y] on Decimals: the default context traps both signals. *)
Definition div (x y : Decimal) : result Decimal :=
  if Qeq_bool y 0 then
    if Qeq_bool x 0 then Raise InvalidOperation else Raise DivisionByZero
  else Ok (x / y).

(** [c.lower()] for one ASCII character. *)
Definition lower_ascii (c : ascii) : ascii :=
  let n := nat_of_ascii c in
  if (65 <=? n)%nat && (n <=? 90)%nat then ascii_of_nat (n + 32) else c.

(** [s.lower()] *)
Fixpoint lower (s : string) : string :=
  match s with
  | EmptyString => EmptyString
  | String c s' => String (lower_ascii c) (lower s')
  end.

(** [y.startswith(x)] *)
Fixpoint startswith (x y : string) : bool :=
  match x, y with
  | EmptyString, _ => true
  | String a x', String b y' => Ascii.eqb a b && startswith x' y'
  | String _ _, EmptyString => false
  end.

(** [x in y] for two strings: [x] occurs in [y] as a contiguous run. *)
Fixpoint contains (x y : string) : bool :=
  startswith x y ||
  match y with
  | EmptyString => false
  | String _ y' => contains x y'
  end.

(** An optional list where the code tests it before iterating ([if l:]):
    [None] and [[]] both skip the loop. *)
Definition or_empty {A : Type} (l : option (list A)) : list A :=
  match l with Some l' => l' | None => [] end.

(** [x in l] for a list of strings. *)
Definition mem (x : string) (l : list string) : bool :=
  existsb (String.eqb x) l.

(** [str.isspace] on one ASCII character (also the class [\s]). *)
Definition is_space (c : ascii) : bool :=
  let n := nat_of_ascii c in
  ((9 <=? n)%nat && (n <=? 13)%nat) || ((28 <=? n)%nat && (n <=? 32)%nat).

(** The class [\d]. *)
Definition is_digit (c : ascii) : bool :=
  let n := nat_of_ascii c in (48 <=? n)%nat && (n <=? 57)%nat.

(** The class [\w]. *)
Definition is_word (c : ascii) : bool :=
  let n := nat_of_ascii c in
  is_digit c || ((65 <=? n)%nat && (n <=? 90)%nat)
  || ((97 <=? n)%nat && (n <=? 122)%nat) || (n =? 95)%nat.

(** [s.split()]: the maximal runs of non-whitespace characters.  [cur] is
    the run being read. *)
Fixpoint split_from (cur : string) (s : string) : list string :=
  match s with
  | EmptyString =>
      match cur with EmptyString => [] | _ => [cur] end
  | String c s' =>
      if is_space c then
        match cur with
        | EmptyString => split_from EmptyString s'
        | _ => cur :: split_from EmptyString s'
        end
      else split_from (cur ++ String c EmptyString) s'
  end.

Definition split (s : string) : list string := split_from EmptyString s.

(** [l[:n]] for a Python int [n]: a negative [n] counts from the end. *)
Definition slice_to {A : Type} (n : Z) (l : list A) : list A :=
  if (n <? 0)%Z then firstn (List.length l - Z.to_nat (- n)) l
  else firstn (Z.to_nat n) l.

(** [list.sort(key=..., reverse=True)].  Python's sort is stable, and
    [reverse=True] keeps equal keys in their original order; a stable sort
    has one possible output, computed here by insertion from the right. *)
Fixpoint insert_desc {A : Type} (key : A -> Q) (x : A) (l : list A) : list A :=
  match l with
  | [] => [x]
  | y :: l' => if gt (key y) (key x) then y :: insert_desc key x l'
               else x :: l
  end.

Definition sort_desc {A : Type} (key : A -> Q) (l : list A) : list A :=
  fold_right (insert_desc key) [] l.

(** *** The fragment of [re] used by [_extract_keywords]

    Patterns are compiled with [re.IGNORECASE]: literals and classes ignore
    ASCII case.  Matching is Python's backtracking search: alternatives in
    order, greedy repetition, the continuation [k] deciding whether the
    rest of the pattern accepts. *)
Inductive regex : Type :=
| Lit (s : string)               (* literal text *)
| Class (p : ascii -> bool)      (* one character of a class *)
| Star (p : ascii -> bool)       (* [c*] for a class [c], greedy *)
| Opt (r : regex)                (* [r?], greedy *)
| Seq (r1 r2 : regex)
| Alt (r1 r2 : regex)
| WordB.                         (* [\b] *)

Definition word_opt (c : option ascii) : bool :=
  match c with Some a => is_word a | None => false end.

Definition head (s : string) : option ascii :=
  match s with EmptyString => None | String c _ => Some c end.

Definition orelse {A : Type} (x y : option A) : option A :=
  match x with Some _ => x | None => y end.

Section Matcher.

Variable R : Type.

(** [prev] is the character before the current position ([None] at the
    start of the subject); [k prev' rest] runs the rest of the pattern. *)
Definition cont : Type := option ascii -> string -> option R.

Fixpoint match_lit (l : string) (prev : option ascii) (s : string) (k : cont)
  : option R :=
  match l with
  | EmptyString => k prev s
  | String a l' =>
      match s with
      | EmptyString => None
      | String b s' =>
          if Ascii.eqb (lower_ascii a) (lower_ascii b)
          then match_lit l' (Some b) s' k else None
      end
  end.

Fixpoint match_star (p : ascii -> bool) (prev : option ascii) (s : string)
    (k : cont) : option R :=
  match s with
  | EmptyString => k prev s
  | String b s' =>
      if p b then orelse (match_star p (Some b) s' k) (k prev s)
      else k prev s
  end.

Fixpoint rmatch (r : regex) (prev : option ascii) (s : string) (k : cont)
  : option R :=
  match r with
  | Lit l => match_lit l prev s k
  | Class p =>
      match s with
      | EmptyString => None
      | String b s' => if p b then k (Some b) s' else None
      end
  | Star p => match_star p prev s k
  | Opt r1 => orelse (rmatch r1 prev s k) (k prev s)
  | Seq r1 r2 => rmatch r1 prev s (fun prev' s' => rmatch r2 prev' s' k)
  | Alt r1 r2 => orelse (rmatch r1 prev s k) (rmatch r2 prev s k)
  | WordB =>
      if xorb (word_opt prev) (word_opt (head s)) then k prev s else None
  end.

End Matcher.

(** The text matched at the start of [s], if the pattern matches there. *)
Definition match_here (r : regex) (prev : option ascii) (s : string)
  : option string :=
  match rmatch string r prev s (fun _ rest => Some rest) with
  | Some rest => Some (substring 0 (String.length s - String.length rest) s)
  | None => None
  end.

(** [re.findall(pattern, s, re.IGNORECASE)] for a pattern whose single group
    is the whole match and which matches no empty text: the leftmost
    matches, not overlapping.  [skip] counts the characters of the last
    match still to be passed. *)
Fixpoint findall_from (r : regex) (prev : option ascii) (skip : nat)
    (s : string) : list string :=
  match s with
  | EmptyString => []
  | String c s' =>
      match skip with
      | S n => findall_from r (Some c) n s'
      | O =>
          match match_here r prev s with
          | Some m => m :: findall_from r (Some c) (String.length m - 1) s'
          | None => findall_from r (Some c) 0 s'
          end
      end
  end.

Definition findall (r : regex) (s : string) : list string :=
  findall_from r None 0 s.

(** [a|b|...] over literal alternatives. *)
Fixpoint alternatives (l : list string) : regex :=
  match l with
  | [] => Class (fun _ => false)
  | [a] => Lit a
  | a :: l' => Alt (Lit a) (alternatives l')
  end.

(** A bracket class under IGNORECASE: [c] or its other case is listed. *)
Definition one_of (chars : string) (c : ascii) : bool :=
  existsb (fun a => Ascii.eqb (lower_ascii a) (lower_ascii c))
          (list_ascii_of_string chars).

Definition plus (p : ascii -> bool) : regex := Seq (Class p) (Star p).

(** [re.search(pattern, s)] as a truth value, for a pattern that matches no
    empty text. *)
Definition search (r : regex) (s : string) : bool :=
  match findall r s with [] => false | _ :: _ => true end.

(** [sep.join(l)] *)
Fixpoint join (sep : string) (l : list string) : string :=
  match l with
  | [] => EmptyString
  | [x] => x
  | x :: l' => x ++ sep ++ join sep l'
  end.

(** [s.replace(old, new)] for an [old] of one character. *)
Fixpoint replace_char (old : ascii) (new : string) (s : string) : string :=
  match s with
  | EmptyString => EmptyString
  | String c s' =>
      if Ascii.eqb c old then new ++ replace_char old new s'
      else String c (replace_char old new s')
  end.

(** A [dict] with string keys, kept as the list of its items in insertion
    order. *)
Definition dict (V : Type) : Type := list (string * V).

(** [d.get(k)]; [None] when the key is missing. *)
Fixpoint get {V : Type} (k : string) (d : dict V) : option V :=
  match d with
  | [] => None
  | (k', v) :: d' => if String.eqb k k' then Some v else get k d'
  end.

(** [d[k] = f(d.get(k))]: an existing key keeps its place, a new key goes to
    the end. *)
Fixpoint upsert {V : Type} (k : string) (f : option V -> V) (d : dict V)
  : dict V :=
  match d with
  | [] => [(k, f None)]
  | (k', v) :: d' =>
      if String.eqb k k' then (k', f (Some v)) :: d'
      else (k', v) :: upsert k f d'
  end.

(** The exception of [d[k]] on a missing key. *)
Inductive key_error : Type := KeyError (key : string).

(** A value that is tested for truth before use ([if s:]): [None] and the
    empty string are both false. *)
Definition nonempty (s : option string) : option string :=
  match s with
  | Some EmptyString => None
  | _ => s
  end.

End Py.

Import Py.
Declare Scope result_scope.
Notation "x <- m ;; k" := (bind m (fun x => k))
  (at level 61, m at next level, right associativity) : result_scope.
Local Open Scope result_scope.
Local Open Scope string_scope.

(** ** backend/tax_calculator.py *)

Module TaxCalculator.

Record TaxConfig : Type := {
  tax_year : string;
  personal_allowance : Decimal;
  basic_rate : Decimal;
  higher_rate : Decimal;
  additional_rate : Decimal;
  higher_rate_threshold : Decimal;
  additional_rate_threshold : Decimal;
  ni_rate_high : Decimal;
  ni_rate_low : Decimal;
  ni_threshold : Decimal;
  student_loan_plan1_threshold : Decimal;
  student_loan_plan1_rate : Decimal;
  student_loan_plan2_threshold : Decimal;
  student_loan_plan2_rate : Decimal
}.

(** The dataclass defaults: [TaxConfig()]. *)
Definition default_config : TaxConfig := {|
  tax_year := "2025/26";
  personal_allowance := 12750;
  basic_rate := 20 # 100;
  higher_rate := 40 # 100;
  additional_rate := 45 # 100;
  higher_rate_threshold := 37700;
  additional_rate_threshold := 125140;
  ni_rate_high := 8 # 100;
  ni_rate_low := 2 # 100;
  ni_threshold := 50270;
  student_loan_plan1_threshold := 26065;
  student_loan_plan1_rate := 9 # 100;
  student_loan_plan2_threshold := 27295;
  student_loan_plan2_rate := 9 # 100
|}.

(** The dict returned by [calculate_income_tax]. *)
Record TaxResult : Type := {
  total : Decimal;
  basic : Decimal;
  higher : Decimal;
  additional : Decimal
}.

Record SalaryBreakdown : Type := {
  gross_yearly : Decimal;
  gross_monthly : Decimal;
  net_yearly : Decimal;
  net_monthly : Decimal;
  income_tax : Decimal;
  national_insurance : Decimal;
  student_loan : Decimal;
  pension : Decimal;
  effective_tax_rate : Decimal;
  tax_breakdown : TaxResult
}.

Section WithConfig.

Variable config : TaxConfig.

Definition calculate_income_tax (taxable_income : Decimal) : TaxResult :=
  if le taxable_income 0 then
    {| total := 0; basic := 0; higher := 0; additional := 0 |}
  else
    (* Additional rate *)
    let '(additional_tax, taxable_income) :=
      if gt taxable_income (additional_rate_threshold config) then
        ((taxable_income - additional_rate_threshold config)
           * additional_rate config,
         additional_rate_threshold config)
      else (0, taxable_income) in
    (* Higher rate *)
    let '(higher_tax, taxable_income) :=
      if gt taxable_income (higher_rate_threshold config) then
        ((taxable_income - higher_rate_threshold config) * higher_rate config,
         higher_rate_threshold config)
      else (0, taxable_income) in
    (* Basic rate *)
    let basic_tax := taxable_income * basic_rate config in
    let total_tax := basic_tax + higher_tax + additional_tax in
    {| total := total_tax; basic := basic_tax;
       higher := higher_tax; additional := additional_tax |}.

Definition calculate_national_insurance (income : Decimal) : Decimal :=
  if le income 0 then 0
  else
    let ni_contribution := 0 in
    let '(ni_contribution, income) :=
      if gt income (ni_threshold config) then
        (ni_contribution + (income - ni_threshold config) * ni_rate_low config,
         ni_threshold config)
      else (ni_contribution, income) in
    ni_contribution + income * ni_rate_high config.

Definition calculate_student_loan (gross : Decimal) (plan : string)
  : result Decimal :=
  tr <- (if String.eqb (lower plan) "plan1" then
           Ok (student_loan_plan1_threshold config,
               student_loan_plan1_rate config)
         else if String.eqb (lower plan) "plan2" then
           Ok (student_loan_plan2_threshold config,
               student_loan_plan2_rate config)
         else Raise (ValueError ("Unknown student loan plan: " ++ plan))) ;;
  let '(threshold, rate) := tr in
  if le gross threshold then Ok 0
  else
    let repayable_income := gross - threshold in
    Ok (repayable_income * rate).

Definition calculate_net_salary (gross pension_pct : Decimal)
    (include_student_loan : bool) (student_loan_plan : string)
  : result SalaryBreakdown :=
  let pension := gross * pension_pct in
  student_loan <- (if include_student_loan
                   then calculate_student_loan gross student_loan_plan
                   else Ok 0) ;;
  let taxable_income := gross - personal_allowance config - pension in
  let tax_result := calculate_income_tax taxable_income in
  let income_tax := total tax_result in
  let national_insurance := calculate_national_insurance taxable_income in
  let total_deductions :=
    income_tax + national_insurance + student_loan + pension in
  let net_yearly := gross - total_deductions in
  effective_tax_rate <- (if gt gross 0
                         then q <- div total_deductions gross ;; Ok (q * 100)
                         else Ok 0) ;;
  gross_monthly <- div gross 12 ;;
  net_monthly <- div net_yearly 12 ;;
  Ok {| gross_yearly := gross;
        gross_monthly := gross_monthly;
        net_yearly := net_yearly;
        net_monthly := net_monthly;
        income_tax := income_tax;
        national_insurance := national_insurance;
        student_loan := student_loan;
        pension := pension;
        effective_tax_rate := effective_tax_rate;
        tax_breakdown := tax_result |}.

End WithConfig.

(** One category of the budget dict. *)
Record BudgetCategory : Type := {
  cat_total : Decimal;
  cat_items : list (string * Decimal);
  cat_percentage : Decimal
}.

Record Budget : Type := {
  income : Decimal;
  Essentials : BudgetCategory;
  Savings : BudgetCategory;
  Spending : BudgetCategory
}.

(** The loop of [recommend_budget] body: [total / monthly_income * 100]. *)
Definition add_percentage (monthly_income cat_total : Decimal)
    (items : list (string * Decimal)) : result BudgetCategory :=
  q <- div cat_total monthly_income ;;
  Ok {| cat_total := cat_total; cat_items := items;
        cat_percentage := q * 100 |}.

Definition recommend_budget (monthly_income : Decimal) : result Budget :=
  let essentials_total := monthly_income * (50 # 100) in
  let essentials_items :=
    [("Rent", monthly_income * (35 # 100));
     ("Bills", monthly_income * (5 # 100));
     ("Groceries", monthly_income * (7 # 100));
     ("Phone", monthly_income * (1 # 100));
     ("Medical Bills", monthly_income * (1 # 100));
     ("Gym", monthly_income * (1 # 100))] in
  let savings_total := monthly_income * (20 # 100) in
  let savings_items :=
    [("Savings", monthly_income * (10 # 100));
     ("Investments", monthly_income * (10 # 100))] in
  let spending_total := monthly_income * (30 # 100) in
  let spending_items :=
    [("Eating Out", monthly_income * (5 # 100));
     ("Pub", monthly_income * (5 # 100));
     ("Flowers", monthly_income * (5 # 100));
     ("Clothes", monthly_income * (5 # 100));
     ("Skincare", monthly_income * (5 # 100));
     ("Vitamins", monthly_income * (5 # 100))] in
  (* for category in ["Essentials", "Savings", "Spending"] *)
  e <- add_percentage monthly_income essentials_total essentials_items ;;
  s <- add_percentage monthly_income savings_total savings_items ;;
  p <- add_percentage monthly_income spending_total spending_items ;;
  Ok {| income := monthly_income;
        Essentials := e; Savings := s; Spending := p |}.

End TaxCalculator.

(** ** backend/lego_blocks.py *)

Module LegoBlocks.

Record LegoBlock : Type := {
  category : string;
  subcategory : option string;
  title : string;
  content : string;
  skills : list string;
  keywords : list string;
  strength_level : string;
  role_types : list string;
  company_types : list string
}.

(** [tech_patterns] of [_extract_keywords]. *)
Definition tech_patterns : list regex :=
  [ Seq WordB (Seq (alternatives
      ["Java"; "Python"; "Scala"; "Kotlin"; "JavaScript"; "TypeScript";
       "SQL"; "React"; "TensorFlow"; "Spark"; "AWS"; "EMR"; "DynamoDB";
       "S3"; "ElasticSearch"; "SageMaker"; "Lambda"; "Amber";
       "CloudFormation"; "CDK"; "Docker"; "Kubernetes"; "SpringMVC";
       "Bootstrap"]) WordB);
    Seq WordB (Seq (alternatives
      ["ML"; "AI"; "API"; "ETL"; "CI/CD"; "DevOps"; "SRE"; "GDPR"; "CCPA";
       "DMA"; "A/B"; "UI/UX"]) WordB) ].

(** [metric_patterns] of [_extract_keywords].  Inside brackets [|] is a
    literal, so [[M|B|K|TB|PB|GB]] is the class of the characters
    M, |, B, K, T, P and G. *)
Definition metric_patterns : list regex :=
  [ Seq (plus is_digit)
      (Seq (Opt (Class (one_of "M|B|K|TB|PB|GB")))
        (Seq (Opt (Lit "+"))
          (Seq (Star is_space)
            (alternatives
               ["users"; "customers"; "countries"; "engineers"; "scientists";
                "services"; "models"; "requests"; "TPS"; "years"; "months";
                "weeks"; "days"]))));
    Seq (Lit "$")
      (Seq (plus is_digit)
        (Seq (Opt (Class (one_of "M|B|K"))) (Opt (Lit "+"))));
    Seq (plus is_digit) (Seq (Lit "%") (Opt (Lit "+"))) ].

(** One turn of either loop of [_extract_keywords]: the comprehension is
    evaluated against [keywords] as it stands before [extend] runs. *)
Definition extend_with_matches (content : string) (keywords : list string)
    (pattern : regex) : list string :=
  let matches := findall pattern content in
  keywords ++ filter (fun m => negb (mem m keywords)) matches.

Definition _extract_keywords (content : string) : list string :=
  let keywords := [] in
  let keywords :=
    fold_left (extend_with_matches content) tech_patterns keywords in
  let keywords :=
    fold_left (extend_with_matches content) metric_patterns keywords in
  firstn 15 keywords.

(** [strength_boost.get(block.strength_level, 0)] *)
Definition strength_boost (level : string) : Q :=
  if String.eqb level "essential" then 2
  else if String.eqb level "strong" then 1
  else if String.eqb level "good" then 1 # 2
  else 0.

(** The body of the loop over [job_requirements]. *)
Definition add_requirement (block : LegoBlock) (score : Q) (req : string) : Q :=
  let req_lower := lower req in
  if contains req_lower (lower (content block)) then score + 3
  else if contains req_lower (lower (title block)) then score + 2
  else if existsb (fun kw => contains req_lower (lower kw)) (keywords block)
       then score + (3 # 2)
  else score.

(** The body of the loop over [required_skills]. *)
Definition add_skill (block : LegoBlock) (score : Q) (skill : string) : Q :=
  if existsb (fun s => contains (lower skill) (lower s)) (skills block)
  then score + (5 # 2)
  else if contains (lower skill) (lower (content block))
       then score + (3 # 2)
  else score.

(** The score [rank_blocks] gives one block. *)
Definition block_score (job_requirements : list string)
    (required_skills : option (list string)) (preferred_role : option string)
    (block : LegoBlock) : Q :=
  let score := 0 in
  let score := fold_left (add_requirement block) job_requirements score in
  let score := fold_left (add_skill block) (or_empty required_skills) score in
  let score :=
    match preferred_role with
    | Some role =>
        if negb (String.eqb role EmptyString) && mem role (role_types block)
        then score + 2 else score
    | None => score
    end in
  let score := score + strength_boost (strength_level block) in
  let total_keywords_matched :=
    List.length
      (filter (fun req => contains (lower req) (lower (content block)))
              job_requirements) in
  let score :=
    if (0 <? total_keywords_matched)%nat
    then score + inject_Z (Z.of_nat total_keywords_matched) * (1 # 2)
    else score in
  score.

Definition rank_blocks (blocks : list LegoBlock)
    (job_requirements : list string)
    (required_skills : option (list string)) (preferred_role : option string)
  : list (LegoBlock * Q) :=
  let scored_blocks :=
    map (fun block =>
           (block,
            block_score job_requirements required_skills preferred_role block))
        blocks in
  sort_desc snd scored_blocks.

(** *** Derived fields of a block *)

Definition CATEGORY_SKILLS : dict (list string) :=
  [ ("SYSTEM ARCHITECTURE & DESIGN",
     ["System Design"; "Architecture"; "Microservices"; "API Design";
      "Distributed Systems"]);
    ("MACHINE LEARNING & DATA SCIENCE",
     ["Machine Learning"; "ML"; "Data Science"; "Model Training"; "Python";
      "TensorFlow"; "Spark"]);
    ("SCALE & PERFORMANCE",
     ["Scalability"; "Performance"; "High Traffic"; "Optimization";
      "Distributed Systems"]);
    ("COST OPTIMIZATION & BUSINESS IMPACT",
     ["Cost Optimization"; "Business Impact"; "ROI"; "Resource Planning"]);
    ("TECHNICAL LEADERSHIP & MENTORING",
     ["Leadership"; "Mentoring"; "Team Building"; "Coaching"; "Management"]);
    ("CROSS-FUNCTIONAL COLLABORATION",
     ["Collaboration"; "Communication"; "Cross-team";
      "Stakeholder Management"]);
    ("INTERNATIONAL EXPANSION & REGULATORY COMPLIANCE",
     ["International"; "Compliance"; "GDPR"; "Regulatory"; "Localization"]);
    ("DEVOPS & OPERATIONAL EXCELLENCE",
     ["DevOps"; "CI/CD"; "CloudFormation"; "Infrastructure"; "On-Call";
      "Monitoring"]);
    ("INNOVATION & EXPERIMENTATION",
     ["Innovation"; "Experimentation"; "A/B Testing"; "Research"]);
    ("FULL-STACK DEVELOPMENT",
     ["Full-Stack"; "Frontend"; "Backend"; "JavaScript"; "Java"; "React";
      "UI/UX"]);
    ("EARLY CAREER & FOUNDATION",
     ["Internship"; "Early Career"; "Algorithm"; "Research"]);
    ("LEADERSHIP & PROFESSIONAL SKILLS",
     ["Leadership"; "Training"; "Documentation"; "Communication"]);
    ("EDUCATION & ACADEMIC EXCELLENCE",
     ["Education"; "Computer Science"; "Academic"]);
    ("TECHNICAL SKILLS EVIDENCE",
     ["Programming"; "Languages"; "Frameworks"; "Tools"]) ].

Definition CATEGORY_ROLE_TYPES : dict (list string) :=
  [ ("SYSTEM ARCHITECTURE & DESIGN",
     ["Backend Engineer"; "Software Engineer"; "Systems Engineer";
      "Staff Engineer"]);
    ("MACHINE LEARNING & DATA SCIENCE",
     ["ML Engineer"; "Data Scientist"; "ML/AI Engineer"; "Research Engineer"]);
    ("SCALE & PERFORMANCE",
     ["Backend Engineer"; "Performance Engineer"; "Infrastructure Engineer";
      "Staff Engineer"]);
    ("COST OPTIMIZATION & BUSINESS IMPACT",
     ["Senior Engineer"; "Staff Engineer"; "Tech Lead"; "Product Engineer"]);
    ("TECHNICAL LEADERSHIP & MENTORING",
     ["Senior Engineer"; "Staff Engineer"; "Tech Lead";
      "Engineering Manager"]);
    ("CROSS-FUNCTIONAL COLLABORATION",
     ["Product Engineer"; "Tech Lead"; "Senior Engineer"]);
    ("INTERNATIONAL EXPANSION & REGULATORY COMPLIANCE",
     ["Senior Engineer"; "Staff Engineer"; "Compliance Engineer"]);
    ("DEVOPS & OPERATIONAL EXCELLENCE",
     ["DevOps Engineer"; "SRE"; "Platform Engineer";
      "Infrastructure Engineer"]);
    ("INNOVATION & EXPERIMENTATION",
     ["Research Engineer"; "Senior Engineer"; "Product Engineer"]);
    ("FULL-STACK DEVELOPMENT",
     ["Full-Stack Engineer"; "Product Engineer"; "Software Engineer"]);
    ("EARLY CAREER & FOUNDATION", ["Software Engineer"; "Junior Engineer"]);
    ("LEADERSHIP & PROFESSIONAL SKILLS",
     ["Senior Engineer"; "Staff Engineer"; "Tech Lead"]);
    ("EDUCATION & ACADEMIC EXCELLENCE",
     ["Software Engineer"; "ML Engineer"; "Research Engineer"]);
    ("TECHNICAL SKILLS EVIDENCE",
     ["Software Engineer"; "Backend Engineer"; "ML Engineer";
      "Full-Stack Engineer"]) ].

(** [tech_keywords] of [_extract_skills]. *)
Definition tech_keywords : list string :=
  ["Java"; "Python"; "Scala"; "Kotlin"; "JavaScript"; "TypeScript"; "SQL";
   "Spark"; "TensorFlow"; "AWS"; "React"; "Machine Learning"; "System Design";
   "Architecture"; "API"; "DevOps"; "Leadership"; "Mentoring"].

(** The body of the loop over [tech_keywords]. *)
Definition add_tech (content : string) (skills : list string) (tech : string)
  : list string :=
  if contains (lower tech) (lower content) && negb (mem tech skills)
  then (skills ++ [tech])%list else skills.

Definition _extract_skills (content category : string) : list string :=
  let skills := [] in
  let skills :=
    match get category CATEGORY_SKILLS with
    | Some l => (skills ++ firstn 3 l)%list
    | None => skills
    end in
  let skills := fold_left (add_tech content) tech_keywords skills in
  firstn 8 skills.

(** [if x not in l: l.append(x)] *)
Definition append_new (x : string) (l : list string) : list string :=
  if negb (mem x l) then (l ++ [x])%list else l.

Definition _infer_role_types (category title content : string)
  : list string :=
  let role_types := [] in
  let role_types :=
    match get category CATEGORY_ROLE_TYPES with
    | Some l => (role_types ++ firstn 3 l)%list
    | None => role_types
    end in
  let role_types :=
    if contains "ML" content || contains "Machine Learning" content
       || contains "model" (lower content)
    then append_new "ML Engineer" role_types else role_types in
  let role_types :=
    if contains "full-stack" (lower content)
       || (contains "frontend" (lower content)
           && contains "backend" (lower content))
    then append_new "Full-Stack Engineer" role_types else role_types in
  let role_types :=
    if contains "team" (lower title) || contains "mentor" (lower content)
       || contains "led" (lower content)
    then
      if negb (mem "Tech Lead" role_types)
         && negb (mem "Senior Engineer" role_types)
      then (role_types ++ ["Senior Engineer"])%list else role_types
    else role_types in
  firstn 4 role_types.

(** [any(keyword in text for keyword in l)] *)
Definition any_in (l : list string) (text : string) : bool :=
  existsb (fun keyword => contains keyword text) l.

Definition _infer_company_types (category title content : string)
  : list string :=
  let company_types := [] in
  let company_types :=
    if any_in ["1B+"; "billion"; "PB"; "petabyte"; "international";
               "17 countries"] content
    then (company_types ++ ["Big Tech"])%list else company_types in
  let company_types :=
    if any_in ["0-to-1"; "MVP"; "sole engineer"; "ground up"; "pioneered"]
              content
    then ((company_types ++ ["Startup"]) ++ ["Scale-up"])%list
    else company_types in
  let company_types :=
    if contains "$" content || contains "revenue" (lower content)
       || contains "cost savings" (lower content)
    then (company_types ++ ["Product-focused"])%list else company_types in
  let company_types :=
    if String.eqb category "MACHINE LEARNING & DATA SCIENCE"
    then (company_types ++ ["ML/AI Company"])%list else company_types in
  let company_types :=
    match company_types with
    | [] => ["Big Tech"; "Startup"; "Scale-up"]
    | _ :: _ => company_types
    end in
  firstn 3 company_types.

Definition _determine_strength_level (content : string) : string :=
  let score := 0%Z in
  (* High impact metrics *)
  let score :=
    if any_in ["$10M"; "1B+"; "PB+"; "17 countries"; "500M"] content
    then (score + 3)%Z
    else if any_in ["$"; "M+"; "TB+"; "international"] content
    then (score + 2)%Z
    else if search (plus is_digit) content then (score + 1)%Z
    else score in
  (* Leadership and scope *)
  let score :=
    if any_in ["led"; "architected"; "built"; "designed"; "sole engineer"]
              content
    then (score + 2)%Z
    else if any_in ["developed"; "implemented"; "created"] content
    then (score + 1)%Z
    else score in
  (* Impact words *)
  let score :=
    if any_in ["zero"; "100%"; "complete"; "comprehensive"] (lower content)
    then (score + 1)%Z else score in
  if (5 <=? score)%Z then "essential"
  else if (3 <=? score)%Z then "strong"
  else "good".

(** *** Searching and grouping the blocks of a manager *)

(** [level_order.get(level, 0)] *)
Definition level_order : dict Z :=
  [("good", 0%Z); ("strong", 1%Z); ("essential", 2%Z)].

Definition level_rank (level : string) : Z :=
  match get level level_order with Some n => n | None => 0%Z end.

Definition search_blocks (blocks : list LegoBlock)
    (skills_wanted : option (list string)) (role_type : option string)
    (category_wanted : option string) (keywords_wanted : option (list string))
    (strength_wanted : option string) : list LegoBlock :=
  let results := blocks in
  (* Filter by category *)
  let results :=
    match nonempty category_wanted with
    | Some c =>
        filter (fun b => contains (lower c) (lower (category b))) results
    | None => results
    end in
  (* Filter by role type *)
  let results :=
    match nonempty role_type with
    | Some r => filter (fun b => mem r (role_types b)) results
    | None => results
    end in
  (* Filter by skills *)
  let results :=
    match or_empty skills_wanted with
    | [] => results
    | wanted =>
        filter (fun b =>
                  existsb (fun skill =>
                             mem (lower skill) (map lower (skills b)))
                          wanted)
               results
    end in
  (* Filter by keywords *)
  let results :=
    match or_empty keywords_wanted with
    | [] => results
    | wanted =>
        filter (fun b =>
                  existsb (fun kw =>
                             contains (lower kw) (lower (content b))
                             || contains (lower kw)
                                  (lower (join " " (keywords b))))
                          wanted)
               results
    end in
  (* Filter by strength level *)
  let results :=
    match nonempty strength_wanted with
    | Some level =>
        let min_level := level_rank level in
        filter (fun b => (min_level <=? level_rank (strength_level b))%Z)
               results
    | None => results
    end in
  results.

(** [grouped[k].append(v)] on a [defaultdict(list)]. *)
Definition group_append {V : Type} (k : string) (v : V) (d : dict (list V))
  : dict (list V) :=
  upsert k (fun old => match old with
                       | Some vs => (vs ++ [v])%list
                       | None => [v]
                       end) d.

Definition get_blocks_by_category (blocks : list LegoBlock)
  : dict (list LegoBlock) :=
  fold_left (fun grouped block => group_append (category block) block grouped)
            blocks [].

(** [counts[k] = counts.get(k, 0) + 1], also [counts[k] += 1] on a
    [defaultdict(int)]. *)
Definition count_up (k : string) (d : dict Z) : dict Z :=
  upsert k (fun old => match old with
                       | Some n => (n + 1)%Z
                       | None => 1%Z
                       end) d.

(** [counts[k] += 1] on a plain dict: a missing key raises. *)
Definition count_existing (k : string) (d : dict Z) : key_error + dict Z :=
  match get k d with
  | Some _ => inr (count_up k d)
  | None => inl (KeyError k)
  end.

Record Stats : Type := {
  total_blocks : nat;
  categories : nat;
  category_breakdown : dict Z;
  strength_breakdown : dict Z;
  top_skills : dict Z;
  top_role_types : dict Z
}.

(** The first loop of [get_summary_stats], over the blocks. *)
Fixpoint breakdowns (blocks : list LegoBlock) (by_category by_strength : dict Z)
  : key_error + (dict Z * dict Z) :=
  match blocks with
  | [] => inr (by_category, by_strength)
  | block :: rest =>
      let by_category := count_up (category block) by_category in
      match count_existing (strength_level block) by_strength with
      | inl e => inl e
      | inr by_strength => breakdowns rest by_category by_strength
      end
  end.

(** [dict(sorted(counts.items(), key=lambda x: x[1], reverse=True)[:10])] *)
Definition top10 (counts : dict Z) : dict Z :=
  firstn 10 (sort_desc (fun x => inject_Z (snd x)) counts).

Definition get_summary_stats (blocks : list LegoBlock) : key_error + Stats :=
  match breakdowns blocks []
          [("essential", 0%Z); ("strong", 0%Z); ("good", 0%Z)] with
  | inl e => inl e
  | inr (by_category, by_strength) =>
      let skill_counts :=
        fold_left (fun counts block =>
                     fold_left (fun counts skill => count_up skill counts)
                               (skills block) counts)
                  blocks [] in
      let role_counts :=
        fold_left (fun counts block =>
                     fold_left (fun counts role => count_up role counts)
                               (role_types block) counts)
                  blocks [] in
      inr {| total_blocks := List.length blocks;
             categories :=
               List.length (nodup string_dec (map category blocks));
             category_breakdown := by_category;
             strength_breakdown := by_strength;
             top_skills := top10 skill_counts;
             top_role_types := top10 role_counts |}
  end.

End LegoBlocks.

(** ** backend/cv_generator.py *)

Module CvGenerator.

(** The columns of [models.Job] and [models.LegoBlock] that the selector
    reads; array and string columns are nullable. *)
Record Job : Type := {
  job_id : Z;
  role : option string;
  parsed_skills : option (list string);
  parsed_requirements : option (list string)
}.

Record LegoBlock : Type := {
  id : Z;
  title : string;
  content : string;
  skills : option (list string);
  keywords : option (list string)
}.

(** The two tables a [Session] is queried for. *)
Record Session : Type := {
  jobs : list Job;
  lego_blocks : list LegoBlock
}.

(** [set.update(l)] on a set of strings kept as a duplicate-free list. *)
Definition update (s : set string) (l : list string) : set string :=
  fold_left (fun acc x => set_add string_dec x acc) l s.

(** The set [job_keywords]. *)
Definition job_keywords (job : Job) : set string :=
  let kws := empty_set string in
  let kws := update kws (map lower (or_empty (parsed_skills job))) in
  let kws := update kws (map lower (or_empty (parsed_requirements job))) in
  match role job with
  | Some r => if String.eqb r EmptyString then kws else update kws (split (lower r))
  | None => kws
  end.

(** The score the keyword matcher gives one block. *)
Definition keyword_score (job_keywords : set string) (block : LegoBlock) : Z :=
  let score := 0%Z in
  let block_text := lower (title block ++ " " ++ content block) in
  (* Check skill matches *)
  let score :=
    fold_left (fun score skill =>
                 if set_mem string_dec (lower skill) job_keywords
                 then (score + 3)%Z else score)
              (or_empty (skills block)) score in
  (* Check keyword matches *)
  let score :=
    fold_left (fun score keyword =>
                 if set_mem string_dec (lower keyword) job_keywords
                 then (score + 2)%Z else score)
              (or_empty (keywords block)) score in
  (* Check content matches *)
  let score :=
    fold_left (fun score keyword =>
                 if contains keyword block_text then (score + 1)%Z else score)
              job_keywords score in
  score.

Definition _select_blocks_fallback (job : Job) (all_blocks : list LegoBlock)
    (max_blocks : Z) : list LegoBlock :=
  let job_keywords := job_keywords job in
  let scored_blocks :=
    flat_map (fun block =>
                let score := keyword_score job_keywords block in
                if (0 <? score)%Z then [(score, block)] else [])
             all_blocks in
  let scored_blocks :=
    sort_desc (fun x => inject_Z (fst x)) scored_blocks in
  map snd (slice_to max_blocks scored_blocks).

(** What [_select_blocks_with_llm] obtains from the Anthropic client: the
    list of block ids parsed from the answer, or [None] when the call
    raises or the answer holds no JSON array. *)
Definition Anthropic : Type := Job -> list LegoBlock -> Z -> option (list Z).

Record CVGenerator : Type := {
  anthropic_client : option Anthropic
}.

Definition _select_blocks_with_llm (client : Anthropic) (job : Job)
    (all_blocks : list LegoBlock) (max_blocks : Z) : list LegoBlock :=
  match client job all_blocks max_blocks with
  | Some selected_ids =>
      let selected_blocks :=
        filter (fun block => existsb (Z.eqb (id block)) selected_ids)
               all_blocks in
      slice_to max_blocks selected_blocks
  | None => _select_blocks_fallback job all_blocks max_blocks
  end.

Definition string_of_Z (z : Z) : string :=
  DecimalString.NilZero.string_of_int (Z.to_int z).

Definition select_blocks (self : CVGenerator) (jid : Z) (db : Session)
    (max_blocks : Z) : result (list LegoBlock) :=
  match find (fun j => Z.eqb (job_id j) jid) (jobs db) with
  | None =>
      Raise (ValueError ("Job with ID " ++ string_of_Z jid ++ " not found"))
  | Some job =>
      let all_blocks := lego_blocks db in
      match all_blocks with
      | [] => Ok []
      | _ =>
          match anthropic_client self with
          | Some client =>
              Ok (_select_blocks_with_llm client job all_blocks max_blocks)
          | None => Ok (_select_blocks_fallback job all_blocks max_blocks)
          end
      end
  end.

(** *** Ranking for the report *)

(** The keywords of [rank_blocks]: skills and requirements, no role. *)
Definition ranking_keywords (job : Job) : set string :=
  let kws := empty_set string in
  let kws := update kws (map lower (or_empty (parsed_skills job))) in
  update kws (map lower (or_empty (parsed_requirements job))).

(** The raw score [rank_blocks] gives one block. *)
Definition ranking_score (job_keywords : set string) (block : LegoBlock) : Q :=
  let score := 0 in
  let block_text := lower (title block ++ " " ++ content block) in
  let score :=
    fold_left (fun score skill =>
                 if set_mem string_dec (lower skill) job_keywords
                 then score + 3 else score)
              (or_empty (skills block)) score in
  let score :=
    fold_left (fun score keyword =>
                 if set_mem string_dec (lower keyword) job_keywords
                 then score + 2 else score)
              (or_empty (keywords block)) score in
  let score :=
    fold_left (fun score keyword =>
                 if contains keyword block_text then score + 1 else score)
              job_keywords score in
  score.

Definition rank_blocks (jid : Z) (db : Session) : result (list (Z * Q)) :=
  match find (fun j => Z.eqb (job_id j) jid) (jobs db) with
  | None =>
      Raise (ValueError ("Job with ID " ++ string_of_Z jid ++ " not found"))
  | Some job =>
      let all_blocks := lego_blocks db in
      match all_blocks with
      | [] => Ok []
      | _ =>
          let job_keywords := ranking_keywords job in
          let ranked :=
            map (fun block =>
                   let score := ranking_score job_keywords block in
                   (* Normalize score to 0-100 scale *)
                   let normalized_score := Qmin 100 (score * 10) in
                   (id block, normalized_score))
                all_blocks in
          Ok (sort_desc snd ranked)
      end
  end.

(** *** LaTeX escaping *)

(** The [replacements] dict of [_escape_latex], in its insertion order. *)
Definition replacements : list (ascii * string) :=
  [ ("&"%char, "\&");
    ("%"%char, "\%");
    ("$"%char, "\$");
    ("#"%char, "\#");
    ("_"%char, "\_");
    ("{"%char, "\{");
    ("}"%char, "\}");
    ("~"%char, "\textasciitilde{}");
    ("^"%char, "\textasciicircum{}");
    ("\"%char, "\textbackslash{}") ].

Definition _escape_latex (text : string) : string :=
  fold_left (fun text r => replace_char (fst r) (snd r) text)
            replacements text.

End CvGenerator.

(** ** Vocabulary of the specification

    Notions the specification uses to state its properties, written from
    its wording; the theorems below relate them to the code. *)

Module Spec.

(** Two characters that are the same letter in either case, or equal. *)
Definition same_letter (a b : ascii) : bool :=
  let x := nat_of_ascii a in
  let y := nat_of_ascii b in
  (x =? y)%nat
  || ((65 <=? x)%nat && (x <=? 90)%nat && (y =? x + 32)%nat)
  || ((65 <=? y)%nat && (y <=? 90)%nat && (x =? y + 32)%nat).

(** [s] is a casing of [t]: same length, the same letters position by
    position. *)
Fixpoint casing_of (s t : string) : bool :=
  match s, t with
  | EmptyString, EmptyString => true
  | String a s', String b t' => same_letter a b && casing_of s' t'
  | _, _ => false
  end.

(** "phrase is a substring of ... (case-insensitive)" *)
Definition phrase_in (phrase text : string) : bool :=
  contains (lower phrase) (lower text).

(** The tier bonus of one requirement phrase: the highest matching tier
    only. *)
Definition tier_bonus (block : LegoBlocks.LegoBlock) (phrase : string) : Q :=
  if phrase_in phrase (LegoBlocks.content block) then 3
  else if phrase_in phrase (LegoBlocks.title block) then 2
  else if existsb (phrase_in phrase) (LegoBlocks.keywords block) then 3 # 2
  else 0.

(** The density bonus of one requirement phrase. *)
Definition density_bonus (block : LegoBlocks.LegoBlock) (phrase : string) : Q :=
  if phrase_in phrase (LegoBlocks.content block) then 1 # 2 else 0.

(** "+2.5 if it matches (case-insensitive, substring) any block skill; else
    +1.5 if substring of block content; else 0" *)
Definition skill_bonus (block : LegoBlocks.LegoBlock) (skill : string) : Q :=
  if existsb (phrase_in skill) (LegoBlocks.skills block) then 5 # 2
  else if phrase_in skill (LegoBlocks.content block) then 3 # 2
  else 0.

(** "+2.0 if preferred_role is present in the block's role_types" *)
Definition role_bonus (block : LegoBlocks.LegoBlock)
    (preferred_role : option string) : Q :=
  match preferred_role with
  | Some r =>
      if negb (String.eqb r EmptyString) && mem r (LegoBlocks.role_types block)
      then 2 else 0
  | None => 0
  end.

Definition Qsum (l : list Q) : Q := fold_right Qplus 0 l.

(** A keyword of the job: a lowered skill, a lowered requirement, or a word
    of the lowered role. *)
Definition job_term (job : CvGenerator.Job) (kw : string) : Prop :=
  (exists s, In s (or_empty (CvGenerator.parsed_skills job)) /\ kw = lower s)
  \/ (exists r, In r (or_empty (CvGenerator.parsed_requirements job))
                /\ kw = lower r)
  \/ (exists r, CvGenerator.role job = Some r /\ In kw (split (lower r))).

(** A block has textual overlap with a job: a keyword of the job is one of
    the block's skills or keywords (ignoring case), or occurs in its title
    or content. *)
Definition overlaps (job : CvGenerator.Job) (block : CvGenerator.LegoBlock)
  : Prop :=
  exists kw, job_term job kw /\
    ((exists s, In s (or_empty (CvGenerator.skills block)) /\ lower s = kw)
     \/ (exists k, In k (or_empty (CvGenerator.keywords block))
                   /\ lower k = kw)
     \/ contains kw (lower (CvGenerator.title block ++ " "
                            ++ CvGenerator.content block)) = true).

(** Descending order of the scores of a ranking. *)
Definition descending {A : Type} (l : list (A * Q)) : Prop :=
  StronglySorted (fun x y => snd y <= snd x) l.

(** The entries of a ranking whose score is [s], in order. *)
Definition with_score {A : Type} (s : Q) (l : list (A * Q)) : list (A * Q) :=
  filter (fun x => Qeq_bool (snd x) s) l.

End Spec.

Import Spec.

(** ** Sample data *)

Module Sample.

(** A block whose title and content both contain the phrase "python". *)
Definition python_block : LegoBlocks.LegoBlock := {|
  LegoBlocks.category := "TECHNICAL SKILLS EVIDENCE";
  LegoBlocks.subcategory := None;
  LegoBlocks.title := "Python data pipeline";
  LegoBlocks.content := "Built a Python pipeline serving 3 teams";
  LegoBlocks.skills := ["Programming"; "Python"];
  LegoBlocks.keywords := ["Python"];
  LegoBlocks.strength_level := "strong";
  LegoBlocks.role_types := ["Software Engineer"];
  LegoBlocks.company_types := ["Big Tech"; "Startup"; "Scale-up"]
|}.

(** A content that names one technology twice. *)
Definition repeated_content : string :=
  "Migrated Python services to AWS, then rewrote the Python client".

Definition backend_job : CvGenerator.Job := {|
  CvGenerator.job_id := 1;
  CvGenerator.role := Some "Backend Engineer";
  CvGenerator.parsed_skills := Some ["Python"];
  CvGenerator.parsed_requirements := None
|}.

Definition pipeline_row : CvGenerator.LegoBlock := {|
  CvGenerator.id := 7;
  CvGenerator.title := "Python data pipeline";
  CvGenerator.content := "Built a Python pipeline serving 3 teams";
  CvGenerator.skills := Some ["Programming"; "Python"];
  CvGenerator.keywords := Some ["Python"]
|}.

Definition session : CvGenerator.Session := {|
  CvGenerator.jobs := [backend_job];
  CvGenerator.lego_blocks := [pipeline_row]
|}.

(** A generator built without [ANTHROPIC_API_KEY]. *)
Definition offline : CvGenerator.CVGenerator :=
  {| CvGenerator.anthropic_client := None |}.

End Sample.

(** ** Conditions on the inputs *)

Module Cond.

(** A tax configuration as the tax years have them: no negative rate or
    threshold, the additional-rate threshold not below the higher-rate
    one. *)
Record plausible (cfg : TaxCalculator.TaxConfig) : Prop := {
  basic_rate_nonneg : 0 <= TaxCalculator.basic_rate cfg;
  higher_rate_nonneg : 0 <= TaxCalculator.higher_rate cfg;
  additional_rate_nonneg : 0 <= TaxCalculator.additional_rate cfg;
  higher_threshold_nonneg : 0 <= TaxCalculator.higher_rate_threshold cfg;
  thresholds_ordered :
    TaxCalculator.higher_rate_threshold cfg
    <= TaxCalculator.additional_rate_threshold cfg;
  ni_rate_high_nonneg : 0 <= TaxCalculator.ni_rate_high cfg;
  ni_rate_low_nonneg : 0 <= TaxCalculator.ni_rate_low cfg;
  ni_threshold_nonneg : 0 <= TaxCalculator.ni_threshold cfg;
  plan1_rate_nonneg : 0 <= TaxCalculator.student_loan_plan1_rate cfg;
  plan2_rate_nonneg : 0 <= TaxCalculator.student_loan_plan2_rate cfg
}.


(** A list of strings without repetition, as a test. *)
Fixpoint distinct (l : list string) : bool :=
  match l with
  | [] => true
  | x :: l' => negb (mem x l') && distinct l'
  end.

(** The three strength levels. *)
Definition levels : list string := ["good"; "strong"; "essential"].

(** A block meets every criterion that a search gives; a criterion that is
    absent or empty is met by every block. *)
Definition meets (skills_wanted : option (list string))
    (role_type category_wanted : option string)
    (keywords_wanted : option (list string)) (strength_wanted : option string)
    (b : LegoBlocks.LegoBlock) : bool :=
  match nonempty category_wanted with
  | Some c => contains (lower c) (lower (LegoBlocks.category b))
  | None => true
  end
  && match nonempty role_type with
     | Some r => mem r (LegoBlocks.role_types b)
     | None => true
     end
  && match or_empty skills_wanted with
     | [] => true
     | wanted =>
         existsb (fun skill =>
                    mem (lower skill) (map lower (LegoBlocks.skills b)))
                 wanted
     end
  && match or_empty keywords_wanted with
     | [] => true
     | wanted =>
         existsb (fun kw =>
                    contains (lower kw) (lower (LegoBlocks.content b))
                    || contains (lower kw)
                         (lower (join " " (LegoBlocks.keywords b))))
                 wanted
     end
  && match nonempty strength_wanted with
     | Some level =>
         (LegoBlocks.level_rank level
          <=? LegoBlocks.level_rank (LegoBlocks.strength_level b))%Z
     | None => true
     end.

(** The blocks of one category, in order. *)
Definition of_category (c : string) (blocks : list LegoBlocks.LegoBlock)
  : list LegoBlocks.LegoBlock :=
  filter (fun b => String.eqb (LegoBlocks.category b) c) blocks.

(** The blocks of one strength level, in order. *)
Definition of_level (level : string) (blocks : list LegoBlocks.LegoBlock)
  : list LegoBlocks.LegoBlock :=
  filter (fun b => String.eqb (LegoBlocks.strength_level b) level) blocks.

(** Every backslash of a text starts the command name [textbackslash{}]. *)
Fixpoint backslashes_spelled (s : string) : bool :=
  match s with
  | EmptyString => true
  | String c s' =>
      (if Ascii.eqb c "\" then startswith "textbackslash{}" s' else true)
      && backslashes_spelled s'
  end.

(** The characters [_escape_latex] replaces. *)
Definition special (c : ascii) : bool :=
  existsb (Ascii.eqb c) (map fst CvGenerator.replacements).

(** A text without any of them. *)
Fixpoint plain (s : string) : bool :=
  match s with
  | EmptyString => true
  | String c s' => negb (special c) && plain s'
  end.

End Cond.

(** ** Overlap in the plain sense *)

Module Overlap.

(** The skill and requirement phrases of a job, and its role. *)
Definition job_phrases (job : CvGenerator.Job) : list string :=
  (or_empty (CvGenerator.parsed_skills job)
   ++ or_empty (CvGenerator.parsed_requirements job)
   ++ match CvGenerator.role job with Some r => [r] | None => [] end)%list.

(** The texts of a block, lowered: title and content, skills, keywords. *)
Definition block_texts (block : CvGenerator.LegoBlock) : list string :=
  (lower (CvGenerator.title block ++ " " ++ CvGenerator.content block)
   :: map lower (or_empty (CvGenerator.skills block))
   ++ map lower (or_empty (CvGenerator.keywords block)))%list.

(** A block has textual overlap with a job when a word of one of the job's
    phrases occurs, ignoring case, in one of the block's texts. *)
Definition shares_word (job : CvGenerator.Job)
    (block : CvGenerator.LegoBlock) : Prop :=
  exists phrase word text,
    In phrase (job_phrases job)
    /\ In word (split (lower phrase))
    /\ In text (block_texts block)
    /\ contains word text = true.

(** A job that asks for "Python experience" and a block about Python. *)
Definition experience_job : CvGenerator.Job := {|
  CvGenerator.job_id := 2;
  CvGenerator.role := None;
  CvGenerator.parsed_skills := None;
  CvGenerator.parsed_requirements := Some ["Python experience"]
|}.

Definition python_row : CvGenerator.LegoBlock := {|
  CvGenerator.id := 8;
  CvGenerator.title := "Data pipeline";
  CvGenerator.content := "Built a Python pipeline";
  CvGenerator.skills := Some ["Python"];
  CvGenerator.keywords := Some ["Python"]
|}.

Definition experience_session : CvGenerator.Session := {|
  CvGenerator.jobs := [experience_job];
  CvGenerator.lego_blocks := [python_row]
|}.

End Overlap.

(** * Properties *)

Import TaxCalculator.

(** ** Decimal comparisons *)

Lemma le_true_iff (x y : Decimal) : le x y = true <-> x <= y.
Proof. unfold le. apply Qle_bool_iff. Qed.

Lemma le_false_iff (x y : Decimal) : le x y = false <-> y < x.
Proof.
  unfold le. split; intro H.
  - apply Qnot_le_lt. intro Hle. apply Qle_bool_iff in Hle. congruence.
  - destruct (Qle_bool x y) eqn:E; [|reflexivity].
    apply Qle_bool_iff in E. lra.
Qed.

Lemma gt_true_iff (x y : Decimal) : gt x y = true <-> y < x.
Proof.
  unfold gt. rewrite negb_true_iff. apply le_false_iff.
Qed.

Lemma gt_false_iff (x y : Decimal) : gt x y = false <-> x <= y.
Proof.
  unfold gt. rewrite negb_false_iff. apply le_true_iff.
Qed.

(** Case analysis on a Decimal test, keeping the order fact. *)
Ltac case_le x y :=
  let E := fresh "E" in
  destruct (le x y) eqn:E;
  [apply le_true_iff in E | apply le_false_iff in E].

Ltac case_gt x y :=
  let E := fresh "E" in
  destruct (gt x y) eqn:E;
  [apply gt_true_iff in E | apply gt_false_iff in E].



(** ** Income tax and national insurance *)

Lemma income_tax_nonpositive (cfg : TaxConfig) (t : Decimal) :
  t <= 0 -> total (calculate_income_tax cfg t) = 0.
Proof.
  intro H. unfold calculate_income_tax.
  apply le_true_iff in H. rewrite H. reflexivity.
Qed.

Lemma national_insurance_nonpositive (cfg : TaxConfig) (t : Decimal) :
  t <= 0 -> calculate_national_insurance cfg t = 0.
Proof.
  intro H. unfold calculate_national_insurance.
  apply le_true_iff in H. rewrite H. reflexivity.
Qed.

(** C3: national insurance charges [ni_rate_low] on the part of the income
    above [ni_threshold] and [ni_rate_high] on the part at or below it, a
    non-positive income owes nothing, and the two parts make up the income
    exactly (no span is charged twice). *)
Theorem national_insurance_two_bands (cfg : TaxConfig) (income : Decimal) :
  let above := Qmax 0 (income - ni_threshold cfg) in
  let below := Qmin income (ni_threshold cfg) in
  calculate_national_insurance cfg income ==
    (if le income 0 then 0
     else above * ni_rate_low cfg + below * ni_rate_high cfg)
  /\ above + below == income.
Proof.
  cbv zeta. split.
  - unfold calculate_national_insurance.
    case_le income 0; [reflexivity|].
    case_gt income (ni_threshold cfg).
    + rewrite Q.max_r by lra. rewrite Q.min_r by lra. ring.
    + rewrite Q.max_l by lra. rewrite Q.min_l by lra. ring.
  - destruct (Qlt_le_dec (ni_threshold cfg) income).
    + rewrite Q.max_r by lra. rewrite Q.min_r by lra. ring.
    + rewrite Q.max_l by lra. rewrite Q.min_l by lra. ring.
Qed.

(** ** The worked scenario *)

(** C1: gross 50000, pension 5%, plan 1 under the 2025/26 constants gives
    pension 2500, income tax 6950 (all of it basic rate, on a taxable income
    of 34750), student loan 2154.15, national insurance 2780 and a yearly
    net of 35615.85. *)
Theorem scenario_gross_50000_plan1 :
  student_loan_plan1_threshold default_config == 26065
  /\ student_loan_plan1_rate default_config == 9 # 100
  /\ personal_allowance default_config == 12750
  /\ basic_rate default_config == 20 # 100
  /\ higher_rate_threshold default_config == 37700
  /\ ni_threshold default_config == 50270
  /\ ni_rate_high default_config == 8 # 100
  /\ exists b,
       calculate_net_salary default_config 50000 (5 # 100) true "plan1" = Ok b
       /\ pension b == 2500
       /\ income_tax b == 6950
       /\ basic (tax_breakdown b) == 34750 * (20 # 100)
       /\ higher (tax_breakdown b) == 0
       /\ additional (tax_breakdown b) == 0
       /\ student_loan b == 215415 # 100
       /\ national_insurance b == 2780
       /\ net_yearly b == 3561585 # 100.
Proof.
  repeat (split; [reflexivity|]).
  eexists. split; [vm_compute; reflexivity|].
  repeat split; reflexivity.
Qed.

(** ** Student loan *)


Lemma student_loan_known (gross threshold rate : Decimal) :
  (if le gross threshold then Ok 0 else Ok ((gross - threshold) * rate))
  = Ok (if le gross threshold then 0 else (gross - threshold) * rate).
Proof. destruct (le gross threshold); reflexivity. Qed.



(** *** Casing of the plan identifier *)

Lemma nat_of_lower_ascii (c : ascii) :
  nat_of_ascii (lower_ascii c) =
  let n := nat_of_ascii c in
  if (65 <=? n)%nat && (n <=? 90)%nat then (n + 32)%nat else n.
Proof.
  unfold lower_ascii. cbv zeta.
  destruct ((65 <=? nat_of_ascii c)%nat && (nat_of_ascii c <=? 90)%nat) eqn:E;
    [|reflexivity].
  apply andb_true_iff in E. destruct E as [_ E]. apply Nat.leb_le in E.
  apply nat_ascii_embedding. lia.
Qed.

Lemma ascii_eqb_nat (a b : ascii) :
  Ascii.eqb a b = (nat_of_ascii a =? nat_of_ascii b)%nat.
Proof.
  destruct (Ascii.eqb a b) eqn:E.
  - apply Ascii.eqb_eq in E. subst b. symmetry. apply Nat.eqb_refl.
  - symmetry. apply Nat.eqb_neq. intro H.
    apply Ascii.eqb_neq in E. apply E.
    rewrite <- (ascii_nat_embedding a), <- (ascii_nat_embedding b).
    now rewrite H.
Qed.

Lemma same_letter_lower (a b : ascii) :
  same_letter a b = Ascii.eqb (lower_ascii a) (lower_ascii b).
Proof.
  rewrite ascii_eqb_nat, !nat_of_lower_ascii. unfold same_letter. cbv zeta.
  generalize (nat_of_ascii a) (nat_of_ascii b). intros x y.
  destruct (65 <=? x)%nat eqn:X1; destruct (x <=? 90)%nat eqn:X2;
  destruct (65 <=? y)%nat eqn:Y1; destruct (y <=? 90)%nat eqn:Y2;
  cbn [andb orb];
  repeat match goal with
         | H : (_ <=? _)%nat = true |- _ => apply Nat.leb_le in H
         | H : (_ <=? _)%nat = false |- _ => apply Nat.leb_gt in H
         end;
  repeat match goal with
         | |- context [(?u =? ?v)%nat] =>
             destruct (Nat.eqb_spec u v)
         end;
  cbn [andb orb]; try reflexivity; lia.
Qed.

Lemma casing_of_lower (s t : string) :
  casing_of s t = String.eqb (lower s) (lower t).
Proof.
  revert t. induction s as [|a s IH]; intros [|b t]; cbn; try reflexivity.
  rewrite same_letter_lower, IH.
  destruct (Ascii.eqb (lower_ascii a) (lower_ascii b)); reflexivity.
Qed.

(** C10: the plan identifier is matched ignoring case.  Any casing of
    "plan1" (of "plan2") gives what the lowercase identifier gives, which is
    a repayment and never an error; exactly the identifiers that are a
    casing of neither raise the unknown-plan error. *)
Theorem student_loan_plan_ignores_case (cfg : TaxConfig) (gross : Decimal)
    (plan : string) :
  calculate_student_loan cfg gross plan =
    (if casing_of plan "plan1" then calculate_student_loan cfg gross "plan1"
     else if casing_of plan "plan2" then calculate_student_loan cfg gross "plan2"
     else Raise (ValueError ("Unknown student loan plan: " ++ plan)))
  /\ returns (calculate_student_loan cfg gross "plan1") = true
  /\ returns (calculate_student_loan cfg gross "plan2") = true
  /\ casing_of "Plan1" "plan1" = true
  /\ casing_of "PLAN2" "plan2" = true.
Proof.
  split.
  - rewrite !casing_of_lower. change (lower "plan1") with "plan1".
    change (lower "plan2") with "plan2".
    unfold calculate_student_loan.
    destruct (String.eqb (lower plan) "plan1") eqn:E1; [reflexivity|].
    destruct (String.eqb (lower plan) "plan2") eqn:E2; reflexivity.
  - unfold calculate_student_loan.
    change (lower "plan1") with "plan1". change (lower "plan2") with "plan2".
    cbn [String.eqb Ascii.eqb Bool.eqb bind].
    repeat split; try reflexivity;
      match goal with
      | |- context [le ?x ?y] => destruct (le x y); reflexivity
      end.
Qed.

(** ** Budget *)

(** C7, at the failing input: with a monthly income of zero the percentage
    of the first category divides zero by zero, and [recommend_budget]
    raises [decimal.InvalidOperation] where the claim expects a budget of
    zeros.  The function returns exactly for the non-zero incomes. *)
Theorem recommend_budget_zero_raises :
  recommend_budget 0 = Raise InvalidOperation
  /\ forall monthly_income,
       returns (recommend_budget monthly_income)
       = negb (Qeq_bool monthly_income 0).
Proof.
  split; [reflexivity|]. intro m.
  unfold recommend_budget, add_percentage, div.
  destruct (Qeq_bool m 0) eqn:E; cbn [bind negb].
  - apply Qeq_bool_iff in E.
    assert (Z : Qeq_bool (m * (50 # 100)) 0 = true)
      by (apply Qeq_bool_iff; rewrite E; reflexivity).
    rewrite Z. reflexivity.
  - reflexivity.
Qed.

(** The sibling computation in [calculate_net_salary] does guard its
    division: a gross of zero returns a breakdown with a zero rate. *)
Lemma net_salary_zero_gross_guarded :
  exists b,
    calculate_net_salary default_config 0 (5 # 100) true "plan1" = Ok b
    /\ effective_tax_rate b = 0.
Proof. eexists. split; reflexivity. Qed.

(** ** Non-positive gross salary *)





(** ** The stable descending sort *)

Section SortDesc.

Context {A : Type}.
Variable key : A -> Q.

Let after (x y : A) : Prop := key y <= key x.

Lemma insert_desc_perm (x : A) (l : list A) :
  Permutation (x :: l) (insert_desc key x l).
Proof.
  induction l as [|y l IH]; cbn.
  - apply Permutation_refl.
  - destruct (gt (key y) (key x)).
    + eapply perm_trans; [apply perm_swap|]. now apply perm_skip.
    + apply Permutation_refl.
Qed.

Lemma sort_desc_perm (l : list A) : Permutation l (sort_desc key l).
Proof.
  induction l as [|x l IH]; cbn.
  - apply perm_nil.
  - eapply perm_trans; [|apply insert_desc_perm]. now apply perm_skip.
Qed.

Lemma sort_desc_length (l : list A) :
  List.length (sort_desc key l) = List.length l.
Proof. symmetry. apply Permutation_length, sort_desc_perm. Qed.

Lemma insert_desc_sorted (x : A) (l : list A) :
  StronglySorted after l -> StronglySorted after (insert_desc key x l).
Proof.
  induction 1 as [|y l Hs IH Hall]; cbn.
  - constructor; constructor.
  - case_gt (key y) (key x).
    + constructor; [exact IH|].
      apply (Permutation_Forall (insert_desc_perm x l)).
      constructor; [|exact Hall]. unfold after. lra.
    + constructor; [now constructor|].
      constructor; [exact E|].
      eapply Forall_impl; [|exact Hall].
      unfold after. intros z Hz. lra.
Qed.

Lemma sort_desc_sorted (l : list A) : StronglySorted after (sort_desc key l).
Proof.
  induction l as [|x l IH]; cbn.
  - constructor.
  - now apply insert_desc_sorted.
Qed.

(** Insertion never moves an element across one with an equal key. *)
Lemma insert_desc_same_key (s : Q) (x : A) (l : list A) :
  filter (fun z => Qeq_bool (key z) s) (insert_desc key x l)
  = filter (fun z => Qeq_bool (key z) s) (x :: l).
Proof.
  induction l as [|y l IH]; [reflexivity|].
  cbn [insert_desc]. case_gt (key y) (key x); [|reflexivity].
  cbn [filter] in *. rewrite IH.
  destruct (Qeq_bool (key y) s) eqn:Ey; [|reflexivity].
  destruct (Qeq_bool (key x) s) eqn:Ex; [|reflexivity].
  apply Qeq_bool_iff in Ex, Ey. lra.
Qed.

Lemma sort_desc_stable (s : Q) (l : list A) :
  filter (fun z => Qeq_bool (key z) s) (sort_desc key l)
  = filter (fun z => Qeq_bool (key z) s) l.
Proof.
  induction l as [|x l IH]; [reflexivity|].
  cbn [sort_desc fold_right]. rewrite insert_desc_same_key.
  cbn [filter]. fold (sort_desc key l). now rewrite IH.
Qed.

(** A stable descending sort has one possible output: two descending lists
    that list the same elements in the same order under every key are
    equal.  So any stable sort computes [sort_desc]. *)
Lemma stable_descending_unique (l1 l2 : list A) :
  StronglySorted after l1 -> StronglySorted after l2 ->
  (forall s, filter (fun z => Qeq_bool (key z) s) l1
             = filter (fun z => Qeq_bool (key z) s) l2) ->
  l1 = l2.
Proof.
  intros S1. revert l2.
  induction S1 as [|x l1 S1 IH H1]; intros l2 S2 Hf.
  - destruct l2 as [|y l2]; [reflexivity|].
    specialize (Hf (key y)). cbn in Hf.
    rewrite (proj2 (Qeq_bool_iff _ _) (Qeq_refl (key y))) in Hf.
    discriminate Hf.
  - destruct S2 as [|y l2 S2 H2].
    + specialize (Hf (key x)). cbn in Hf.
      rewrite (proj2 (Qeq_bool_iff _ _) (Qeq_refl (key x))) in Hf.
      discriminate Hf.
    + assert (Hxx : Qeq_bool (key x) (key x) = true)
        by (apply Qeq_bool_iff; reflexivity).
      assert (Hyy : Qeq_bool (key y) (key y) = true)
        by (apply Qeq_bool_iff; reflexivity).
      assert (Hx : In x (y :: l2)).
      { pose proof (Hf (key x)) as E. cbn [filter] in E. rewrite Hxx in E.
        assert (Hin : In x (filter (fun z => Qeq_bool (key z) (key x))
                                   (y :: l2)))
          by (cbn [filter]; rewrite <- E; now left).
        apply filter_In in Hin. tauto. }
      assert (Hy : In y (x :: l1)).
      { pose proof (Hf (key y)) as E. cbn [filter] in E. rewrite Hyy in E.
        assert (Hin : In y (filter (fun z => Qeq_bool (key z) (key y))
                                   (x :: l1)))
          by (cbn [filter]; rewrite E; now left).
        apply filter_In in Hin. tauto. }
      assert (Hkey : key x == key y).
      { rewrite Forall_forall in H1, H2. unfold after in H1, H2.
        apply Qle_antisym.
        - destruct Hx as [<- | Hx]; [apply Qle_refl | now apply H2].
        - destruct Hy as [<- | Hy]; [apply Qle_refl | now apply H1]. }
      assert (Hxy : x = y).
      { pose proof (Hf (key x)) as E. cbn [filter] in E. rewrite Hxx in E.
        rewrite (proj2 (Qeq_bool_iff _ _) (Qeq_sym _ _ Hkey)) in E.
        now inversion E. }
      subst y. f_equal. apply IH; [exact S2|].
      intro s. specialize (Hf s). cbn [filter] in Hf.
      destruct (Qeq_bool (key x) s); [now inversion Hf | exact Hf].
Qed.

Lemma sort_desc_unique (l l' : list A) :
  StronglySorted after l' ->
  (forall s, filter (fun z => Qeq_bool (key z) s) l'
             = filter (fun z => Qeq_bool (key z) s) l) ->
  l' = sort_desc key l.
Proof.
  intros Hs Hf. apply stable_descending_unique.
  - exact Hs.
  - apply sort_desc_sorted.
  - intro s. rewrite sort_desc_stable. apply Hf.
Qed.

End SortDesc.

(** ** Ranking *)

Import LegoBlocks.

(** C8: [rank_blocks] returns every input block once, paired with its
    score, in descending order of score, and the blocks that share a score
    keep the order they have in the input list. *)
Theorem rank_blocks_sorted_stable (blocks : list LegoBlock)
    (job_requirements : list string) (required_skills : option (list string))
    (preferred_role : option string) :
  let score := block_score job_requirements required_skills preferred_role in
  let scored := map (fun block => (block, score block)) blocks in
  let ranked :=
    rank_blocks blocks job_requirements required_skills preferred_role in
  Permutation scored ranked
  /\ descending ranked
  /\ forall s, with_score s ranked = with_score s scored.
Proof.
  cbv zeta. unfold rank_blocks, descending, with_score.
  split; [apply sort_desc_perm|].
  split; [apply sort_desc_sorted|].
  intro s. apply sort_desc_stable.
Qed.

(** ** The score of a block *)

Lemma Qsum_cons (x : Q) (l : list Q) : Qsum (x :: l) = x + Qsum l.
Proof. reflexivity. Qed.

Section Accumulate.

Context {X : Type}.
Variables (f : Q -> X -> Q) (g : X -> Q).
Hypothesis step : forall s x, f s x == s + g x.

(** A loop that adds [g x] for each [x] adds the sum of the [g x]. *)
Lemma fold_left_adds (l : list X) (s : Q) :
  fold_left f l s == s + Qsum (map g l).
Proof.
  revert s. induction l as [|x l IH]; intro s; cbn [fold_left map].
  - unfold Qsum, fold_right. ring.
  - rewrite Qsum_cons, IH, step. ring.
Qed.

End Accumulate.

Lemma Qsum_app (l1 l2 : list Q) : Qsum (l1 ++ l2) == Qsum l1 + Qsum l2.
Proof.
  induction l1 as [|x l1 IH]; cbn [app].
  - change (Qsum []) with 0. ring.
  - rewrite !Qsum_cons, IH. ring.
Qed.

Lemma Qsum_insert {X : Type} (g : X -> Q) (l1 l2 : list X) (x : X) :
  Qsum (map g (l1 ++ x :: l2)) == Qsum (map g (l1 ++ l2)) + g x.
Proof.
  rewrite !map_app, !Qsum_app. cbn [map]. rewrite Qsum_cons. ring.
Qed.

Lemma add_requirement_step (block : LegoBlock) (s : Q) (req : string) :
  add_requirement block s req == s + tier_bonus block req.
Proof.
  unfold add_requirement, tier_bonus, phrase_in.
  destruct (contains (lower req) (lower (content block))); [reflexivity|].
  destruct (contains (lower req) (lower (title block))); [reflexivity|].
  destruct (existsb _ (keywords block)); [reflexivity | ring].
Qed.

Lemma add_skill_step (block : LegoBlock) (s : Q) (skill : string) :
  add_skill block s skill == s + skill_bonus block skill.
Proof.
  unfold add_skill, skill_bonus, phrase_in.
  destruct (existsb _ (skills block)); [reflexivity|].
  destruct (contains (lower skill) (lower (content block)));
    [reflexivity | ring].
Qed.

Lemma density_count (block : LegoBlock) (reqs : list string) :
  inject_Z (Z.of_nat (List.length
     (filter (fun req => contains (lower req) (lower (content block))) reqs)))
  * (1 # 2)
  == Qsum (map (density_bonus block) reqs).
Proof.
  induction reqs as [|r reqs IH]; [reflexivity|].
  cbn [filter map]. rewrite Qsum_cons, <- IH.
  unfold density_bonus, phrase_in.
  destruct (contains (lower r) (lower (content block))); [|ring].
  cbn [List.length]. rewrite Nat2Z.inj_succ, <- Z.add_1_r, inject_Z_plus.
  ring.
Qed.

(** The score is the sum of the five terms of the scoring formula. *)
Lemma block_score_formula (reqs : list string) (sk : option (list string))
    (preferred_role : option string) (block : LegoBlock) :
  block_score reqs sk preferred_role block ==
    Qsum (map (tier_bonus block) reqs)
    + Qsum (map (skill_bonus block) (or_empty sk))
    + role_bonus block preferred_role
    + strength_boost (strength_level block)
    + Qsum (map (density_bonus block) reqs).
Proof.
  unfold block_score.
  set (n := List.length _).
  assert (Hd : (if (0 <? n)%nat
                then inject_Z (Z.of_nat n) * (1 # 2) else 0)
               == Qsum (map (density_bonus block) reqs)).
  { rewrite <- density_count. fold n.
    destruct (Nat.ltb_spec 0 n) as [_|Hn]; [reflexivity|].
    replace n with 0%nat by lia. reflexivity. }
  rewrite <- Hd.
  set (s2 := fold_left (add_skill block) _ _).
  assert (H2 : s2 == Qsum (map (tier_bonus block) reqs)
                     + Qsum (map (skill_bonus block) (or_empty sk))).
  { unfold s2.
    rewrite (fold_left_adds _ _ (add_skill_step block)).
    rewrite (fold_left_adds _ _ (add_requirement_step block)). ring. }
  set (s3 := match preferred_role with Some _ => _ | None => _ end).
  assert (H3 : s3 == s2 + role_bonus block preferred_role).
  { unfold s3, role_bonus. destruct preferred_role as [r|]; [|ring].
    destruct (negb (String.eqb r EmptyString) && mem r (role_types block));
      [reflexivity | ring]. }
  destruct (0 <? n)%nat; rewrite H3, H2; ring.
Qed.

Lemma tier_bonus_values (block : LegoBlock) (req : string) :
  In (tier_bonus block req) [3; 2; 3 # 2; 0].
Proof.
  unfold tier_bonus.
  destruct (phrase_in req (content block)); [now left|].
  destruct (phrase_in req (title block)); [now right; left|].
  destruct (existsb _ (keywords block)); cbn; auto.
Qed.

(** C4: adding one requirement phrase to the job raises a block's score by
    exactly one tier bonus (3.0 for the content, else 2.0 for the title,
    else 1.5 for a keyword, else 0) plus the separate 0.5 density bonus when
    the phrase is in the content; the tier bonus is one of the four values,
    never a sum of tiers. *)
Theorem requirement_adds_one_tier (block : LegoBlock)
    (reqs1 reqs2 : list string) (req : string)
    (required_skills : option (list string)) (preferred_role : option string) :
  block_score (reqs1 ++ req :: reqs2) required_skills preferred_role block
  == block_score (reqs1 ++ reqs2) required_skills preferred_role block
     + tier_bonus block req + density_bonus block req
  /\ In (tier_bonus block req) [3; 2; 3 # 2; 0]
  /\ tier_bonus block req + density_bonus block req <= 3 + (1 # 2).
Proof.
  split; [|split].
  - rewrite !block_score_formula, !Qsum_insert. ring.
  - apply tier_bonus_values.
  - unfold tier_bonus, density_bonus.
    destruct (phrase_in req (content block)); [unfold Qle; cbn; lia|].
    destruct (phrase_in req (title block)); [unfold Qle; cbn; lia|].
    destruct (existsb _ (keywords block)); unfold Qle; cbn; lia.
Qed.

(** A phrase found in the content and in the title earns the content tier
    and the density bonus, 3.5 in all, not 5.0 or 5.5. *)
Example phrase_in_content_and_title :
  phrase_in "python" (title Sample.python_block) = true
  /\ phrase_in "python" (content Sample.python_block) = true
  /\ block_score ["python"] None None Sample.python_block
     == block_score [] None None Sample.python_block + 3 + (1 # 2).
Proof. repeat split; reflexivity. Qed.

(** ** Keyword extraction *)

Lemma extract_keywords_at_most_15 (text : string) :
  (List.length (_extract_keywords text) <= 15)%nat.
Proof. unfold _extract_keywords. apply firstn_le_length. Qed.

(** C9, at the failing input: both occurrences of "Python" are matches of
    the first pattern, the membership test of the comprehension reads the
    list as it was before that pattern, and the keyword is returned twice. *)
Theorem extract_keywords_repeats_match :
  _extract_keywords Sample.repeated_content = ["Python"; "AWS"; "Python"]
  /\ ~ NoDup (_extract_keywords Sample.repeated_content).
Proof.
  assert (E : _extract_keywords Sample.repeated_content
              = ["Python"; "AWS"; "Python"]) by (vm_compute; reflexivity).
  split; [exact E|]. rewrite E. intro H.
  inversion H as [|x l Hnotin _]; subst. apply Hnotin. right; left; reflexivity.
Qed.

(** ** Block selection without an LLM client *)

Import CvGenerator.

Section Bonus.

Context {X : Type}.
Variables (p : X -> bool) (w : Z).
Hypothesis w_pos : (0 < w)%Z.

Let add (score : Z) (x : X) : Z := if p x then (score + w)%Z else score.

Lemma fold_bonus_ge (l : list X) (s : Z) : (s <= fold_left add l s)%Z.
Proof.
  revert s. induction l as [|x l IH]; intro s; cbn [fold_left]; [lia|].
  specialize (IH (add s x)). unfold add in *. destruct (p x); lia.
Qed.

Lemma fold_bonus_gt (l : list X) (s : Z) :
  (s < fold_left add l s)%Z <-> exists x, In x l /\ p x = true.
Proof.
  revert s. induction l as [|x l IH]; intro s; cbn [fold_left].
  - split; [lia | intros [x [[] _]]].
  - split.
    + intro H. destruct (p x) eqn:E.
      * exists x. split; [now left | exact E].
      * assert (Ea : add s x = s) by (unfold add; now rewrite E).
        rewrite Ea in H.
        apply IH in H. destruct H as [y [Hy Hp]].
        exists y. split; [now right | exact Hp].
    + intros [y [[-> | Hy] Hp]].
      * pose proof (fold_bonus_ge l (add s y)) as Hge.
        assert (Ea : add s y = (s + w)%Z) by (unfold add; now rewrite Hp).
        rewrite Ea in *. lia.
      * assert (Hl : (add s x < fold_left add l (add s x))%Z)
          by (apply IH; eauto).
        assert (s <= add s x)%Z by (unfold add; destruct (p x); lia).
        lia.
Qed.

End Bonus.

Lemma update_In (l : list string) (s : set string) (x : string) :
  In x (update s l) <-> In x s \/ In x l.
Proof.
  unfold update. revert s. induction l as [|y l IH]; intro s; cbn [fold_left].
  - cbn. tauto.
  - rewrite IH. unfold set_In. rewrite set_add_iff. cbn. intuition congruence.
Qed.

Lemma job_keywords_spec (job : Job) (kw : string) :
  In kw (job_keywords job) <-> job_term job kw.
Proof.
  unfold job_keywords, job_term.
  assert (Hbase :
    In kw (update (update (empty_set string)
                     (map lower (or_empty (parsed_skills job))))
             (map lower (or_empty (parsed_requirements job))))
    <-> (exists s, In s (or_empty (parsed_skills job)) /\ kw = lower s)
        \/ (exists r, In r (or_empty (parsed_requirements job))
                      /\ kw = lower r)).
  { rewrite !update_In, !in_map_iff. cbn.
    split.
    - intros [[[] | [s [E H]]] | [r [E H]]]; [left | right]; eauto.
    - intros [[s [H E]] | [r [H E]]]; [left; right | right]; eauto. }
  destruct (role job) as [r|].
  - destruct (String.eqb_spec r EmptyString) as [-> | _].
    + rewrite Hbase. cbn. split; [tauto|].
      intros [H | [H | [r [E H]]]]; [tauto | tauto |].
      inversion E; subst. destruct H.
    + rewrite update_In, Hbase. split.
      * intros [[H | H] | H]; [tauto | tauto |]. right; right. eauto.
      * intros [H | [H | [r' [E H]]]]; [tauto | tauto |].
        inversion E; subst. now right.
  - rewrite Hbase. split; [tauto|].
    intros [H | [H | [r [E _]]]]; [tauto | tauto | discriminate E].
Qed.

Lemma set_mem_In (x : string) (s : set string) :
  set_mem string_dec x s = true <-> In x s.
Proof.
  split; [apply set_mem_correct1 | apply set_mem_correct2].
Qed.

(** The keyword matcher gives a block a positive score exactly when the
    block overlaps the job. *)
Lemma keyword_score_positive (job : Job) (block : LegoBlock) :
  (0 < keyword_score (job_keywords job) block)%Z <-> overlaps job block.
Proof.
  unfold keyword_score.
  set (kws := job_keywords job).
  set (text := lower (title block ++ " " ++ content block)).
  set (p1 := fun skill => set_mem string_dec (lower skill) kws).
  set (p2 := fun keyword => set_mem string_dec (lower keyword) kws).
  set (p3 := fun keyword => contains keyword text).
  set (s1 := fold_left _ (or_empty (skills block)) 0%Z).
  set (s2 := fold_left _ (or_empty (keywords block)) s1).
  set (s3 := fold_left _ kws s2).
  assert (G1 : (0 <= s1)%Z) by (apply (fold_bonus_ge p1 3); lia).
  assert (G2 : (s1 <= s2)%Z) by (apply (fold_bonus_ge p2 2); lia).
  assert (G3 : (s2 <= s3)%Z) by (apply (fold_bonus_ge p3 1); lia).
  assert (T1 : (0 < s1)%Z
               <-> exists x, In x (or_empty (skills block)) /\ p1 x = true)
    by (apply (fold_bonus_gt p1 3); lia).
  assert (T2 : (s1 < s2)%Z
               <-> exists x, In x (or_empty (keywords block)) /\ p2 x = true)
    by (apply (fold_bonus_gt p2 2); lia).
  assert (T3 : (s2 < s3)%Z <-> exists x, In x kws /\ p3 x = true)
    by (apply (fold_bonus_gt p3 1); lia).
  unfold overlaps. split.
  - intro H.
    assert (C : (0 < s1 \/ s1 < s2 \/ s2 < s3)%Z) by lia.
    destruct C as [C | [C | C]].
    + apply T1 in C. destruct C as [s [Hs Hp]].
      apply set_mem_In, job_keywords_spec in Hp.
      exists (lower s). split; [exact Hp|]. left. eauto.
    + apply T2 in C. destruct C as [k [Hk Hp]].
      apply set_mem_In, job_keywords_spec in Hp.
      exists (lower k). split; [exact Hp|]. right; left. eauto.
    + apply T3 in C. destruct C as [kw [Hkw Hp]].
      apply job_keywords_spec in Hkw.
      exists kw. split; [exact Hkw|]. right; right. exact Hp.
  - intros [kw [Hterm Hhit]]. apply job_keywords_spec in Hterm.
    destruct Hhit as [[s [Hs E]] | [[k [Hk E]] | Hc]].
    + assert (0 < s1)%Z; [|lia].
      apply T1. exists s. split; [exact Hs|].
      apply set_mem_In. now rewrite E.
    + assert (s1 < s2)%Z; [|lia].
      apply T2. exists k. split; [exact Hk|].
      apply set_mem_In. now rewrite E.
    + assert (s2 < s3)%Z; [|lia].
      apply T3. exists kw. split; [exact Hterm | exact Hc].
Qed.

Lemma slice_to_In {A : Type} (n : Z) (l : list A) (x : A) :
  In x (slice_to n l) -> In x l.
Proof.
  unfold slice_to. intro H.
  destruct (n <? 0)%Z;
    match type of H with
    | In _ (firstn ?k _) =>
        rewrite <- (firstn_skipn k l); apply in_or_app; now left
    end.
Qed.

Lemma slice_to_length {A : Type} (n : Z) (l : list A) :
  (1 <= n)%Z ->
  List.length (slice_to n l) = Nat.min (Z.to_nat n) (List.length l).
Proof.
  intro Hn. unfold slice_to.
  destruct (Z.ltb_spec n 0); [lia|]. apply length_firstn.
Qed.

(** The scored blocks of the fallback are the blocks of positive score. *)
Lemma scored_blocks_In (kws : set string) (blocks : list LegoBlock)
    (score : Z) (block : LegoBlock) :
  In (score, block)
     (flat_map (fun block =>
                  let score := keyword_score kws block in
                  if (0 <? score)%Z then [(score, block)] else [])
               blocks)
  <-> In block blocks /\ score = keyword_score kws block /\ (0 < score)%Z.
Proof.
  rewrite in_flat_map. cbv zeta. split.
  - intros [b [Hb H]]. destruct (Z.ltb_spec 0 (keyword_score kws b)) as [Hp|Hp].
    + destruct H as [H | []]. inversion H; subst. auto.
    + destruct H.
  - intros [Hb [-> Hp]]. exists block. split; [exact Hb|].
    apply Z.ltb_lt in Hp. rewrite Hp. now left.
Qed.

Lemma select_blocks_fallback_In (job : Job) (blocks : list LegoBlock)
    (max_blocks : Z) (block : LegoBlock) :
  In block (_select_blocks_fallback job blocks max_blocks) ->
  In block blocks /\ overlaps job block.
Proof.
  unfold _select_blocks_fallback. cbv zeta. intro H.
  apply in_map_iff in H. destruct H as [[score b] [E H]]. cbn in E. subst b.
  apply slice_to_In in H.
  apply (Permutation_in _ (Permutation_sym (sort_desc_perm _ _))) in H.
  apply scored_blocks_In in H. destruct H as [Hb [-> Hp]].
  split; [exact Hb|]. now apply keyword_score_positive.
Qed.

Lemma select_blocks_fallback_length (job : Job) (blocks : list LegoBlock)
    (max_blocks : Z) :
  (1 <= max_blocks)%Z ->
  (exists block, In block blocks /\ overlaps job block) ->
  let n := List.length (_select_blocks_fallback job blocks max_blocks) in
  (1 <= n)%nat /\ (Z.of_nat n <= max_blocks)%Z.
Proof.
  intros Hn [block [Hb Ho]]. cbv zeta.
  unfold _select_blocks_fallback. cbv zeta.
  rewrite length_map, slice_to_length, sort_desc_length by exact Hn.
  set (scored := flat_map _ blocks).
  assert (Hs : (1 <= List.length scored)%nat).
  { apply keyword_score_positive in Ho.
    assert (Hin : In (keyword_score (job_keywords job) block, block) scored)
      by (apply scored_blocks_In; auto).
    destruct scored; [destruct Hin | cbn; lia]. }
  lia.
Qed.

(** A request for at most 0 blocks is answered with the empty list, also
    when a block overlaps the job. *)
Lemma select_blocks_max_zero_empty :
  overlaps Sample.backend_job Sample.pipeline_row
  /\ In Sample.pipeline_row (lego_blocks Sample.session)
  /\ select_blocks Sample.offline 1 Sample.session 0 = Ok [].
Proof.
  split; [|split; [now left | reflexivity]].
  exists "python". split.
  - left. exists "Python". split; [now left | reflexivity].
  - left. exists "Python". split; [right; now left | reflexivity].
Qed.

(** C5 as stated fails at the default bound of 6 blocks.  The job requires
    "Python experience"; the block is about Python in its content, its
    skills and its keywords, so the two share the word "python".  The
    keyword matcher compares whole phrases only: no skill or keyword of the
    block equals "python experience" and the phrase is not in its text, the
    block scores 0 and nothing is selected. *)
Lemma select_blocks_shared_word_empty :
  Overlap.shares_word Overlap.experience_job Overlap.python_row
  /\ In Overlap.python_row (lego_blocks Overlap.experience_session)
  /\ keyword_score (job_keywords Overlap.experience_job) Overlap.python_row
     = 0%Z
  /\ select_blocks Sample.offline 2 Overlap.experience_session 6 = Ok [].
Proof.
  split; [|split; [now left | split; reflexivity]].
  exists "Python experience", "python", "python".
  split; [now left|]. split; [now left|].
  split; [right; now left | reflexivity].
Qed.

(** C5, as the code has it.  A block overlaps a job when a whole keyword of
    the job (a lowered skill or requirement phrase, or a word of the
    lowered role) is a lowered skill or keyword of the block or occurs in
    its lowered title and content.  When some block of the store overlaps
    the job in this sense and [max_blocks] is at least 1, [select_blocks]
    without an LLM client returns a selection that is not empty: it is the
    selection of the keyword matcher, at most [max_blocks] blocks, all of
    them blocks of the store that overlap the job. *)
Theorem select_blocks_offline_nonempty (self : CVGenerator) (db : Session)
    (jid : Z) (job : Job) (max_blocks : Z) :
  anthropic_client self = None ->
  find (fun j => Z.eqb (job_id j) jid) (jobs db) = Some job ->
  (exists block, In block (lego_blocks db) /\ overlaps job block) ->
  (1 <= max_blocks)%Z ->
  exists selected,
    select_blocks self jid db max_blocks = Ok selected
    /\ selected = _select_blocks_fallback job (lego_blocks db) max_blocks
    /\ selected <> []
    /\ (Z.of_nat (List.length selected) <= max_blocks)%Z
    /\ forall block, In block selected ->
         In block (lego_blocks db) /\ overlaps job block.
Proof.
  intros Hclient Hjob Hover Hmax.
  exists (_select_blocks_fallback job (lego_blocks db) max_blocks).
  pose proof (select_blocks_fallback_length job (lego_blocks db) max_blocks
                Hmax Hover) as [Hlen Hcap].
  split; [|split; [reflexivity|split; [|split]]].
  - unfold select_blocks. rewrite Hjob, Hclient.
    destruct Hover as [block [Hb _]].
    destruct (lego_blocks db); [destruct Hb | reflexivity].
  - intro E. rewrite E in Hlen. cbn in Hlen. lia.
  - exact Hcap.
  - intros block. apply select_blocks_fallback_In.
Qed.

Lemma select_blocks_offline_nonempty_witness :
  exists selected,
    select_blocks Sample.offline 1 Sample.session 6 = Ok selected
    /\ selected
       = _select_blocks_fallback Sample.backend_job
           (lego_blocks Sample.session) 6
    /\ selected <> []
    /\ (Z.of_nat (List.length selected) <= 6)%Z
    /\ forall block, In block selected ->
         In block (lego_blocks Sample.session)
         /\ overlaps Sample.backend_job block.
Proof.
  apply (select_blocks_offline_nonempty Sample.offline Sample.session 1
           Sample.backend_job 6).
  - reflexivity.
  - reflexivity.
  - exists Sample.pipeline_row. split; [now left|].
    exists "python". split.
    + left. exists "Python". split; [now left | reflexivity].
    + left. exists "Python". split; [right; now left | reflexivity].
  - lia.
Defined.

(** * Further properties of the tax calculator *)

(** Resolve [Qmin] and [Qmax], innermost first, from the order facts at
    hand. *)
Ltac minmax :=
  repeat match goal with
  | |- context [Qmin ?a ?b] =>
      lazymatch a with context [Qmin _ _] => fail | _ => idtac end;
      first [rewrite (Q.min_l a b) by lra | rewrite (Q.min_r a b) by lra]
  | |- context [Qmax ?a ?b] =>
      lazymatch b with context [Qmin _ _] => fail | _ => idtac end;
      first [rewrite (Q.max_l a b) by lra | rewrite (Q.max_r a b) by lra]
  end.

(** X1: for a positive taxable income the three components of the income
    tax are the widths of the three bands times their rates (the income is
    first capped at the additional-rate threshold), a non-positive income
    owes nothing, the total is their sum and the band widths add up to the
    income. *)
Theorem income_tax_three_bands (cfg : TaxConfig) (t : Decimal) :
  let capped := Qmin t (additional_rate_threshold cfg) in
  let over := Qmax 0 (t - additional_rate_threshold cfg) in
  let mid := Qmax 0 (capped - higher_rate_threshold cfg) in
  let low := Qmin capped (higher_rate_threshold cfg) in
  let r := calculate_income_tax cfg t in
  (if le t 0 then additional r == 0 /\ higher r == 0 /\ basic r == 0
   else additional r == over * additional_rate cfg
        /\ higher r == mid * higher_rate cfg
        /\ basic r == low * basic_rate cfg)
  /\ total r == basic r + higher r + additional r
  /\ over + mid + low == t.
Proof.
  cbv zeta. unfold calculate_income_tax.
  set (art := additional_rate_threshold cfg).
  set (hrt := higher_rate_threshold cfg).
  split; [|split].
  - case_le t 0; [repeat split; reflexivity|].
    case_gt t art; [case_gt art hrt | case_gt t hrt];
      cbn [additional higher basic];
      repeat split; minmax; ring.
  - case_le t 0; [reflexivity|].
    destruct (gt t art); [destruct (gt art hrt) | destruct (gt t hrt)];
      cbn [total additional higher basic]; ring.
  - destruct (Qlt_le_dec art t);
      [destruct (Qlt_le_dec hrt art) | destruct (Qlt_le_dec hrt t)];
      minmax; ring.
Qed.

Lemma default_config_plausible : Cond.plausible default_config.
Proof. constructor; cbn; unfold Qle; cbn; lia. Qed.

(** X2: a positive taxable income up to the higher-rate threshold, the
    threshold itself included, is taxed at the basic rate only: the boundary
    value does not spill into the next band. *)
Theorem income_tax_basic_band_only (cfg : TaxConfig) (t : Decimal) :
  0 < t ->
  t <= higher_rate_threshold cfg ->
  higher_rate_threshold cfg <= additional_rate_threshold cfg ->
  let r := calculate_income_tax cfg t in
  total r == t * basic_rate cfg /\ higher r == 0 /\ additional r == 0.
Proof.
  intros Hpos Hle Hord. cbv zeta. unfold calculate_income_tax.
  assert (E0 : le t 0 = false) by (apply le_false_iff; exact Hpos).
  assert (E1 : gt t (additional_rate_threshold cfg) = false)
    by (apply gt_false_iff; lra).
  assert (E2 : gt t (higher_rate_threshold cfg) = false)
    by (apply gt_false_iff; lra).
  rewrite E0, E1, E2. cbn [total higher additional].
  repeat split; try reflexivity. ring.
Qed.

Lemma income_tax_basic_band_only_witness :
  let r := calculate_income_tax default_config 37700 in
  total r == 37700 * basic_rate default_config
  /\ higher r == 0 /\ additional r == 0.
Proof.
  apply (income_tax_basic_band_only default_config 37700).
  - unfold Qlt; simpl; lia.
  - unfold Qle; simpl; lia.
  - unfold Qle; simpl; lia.
Defined.

Lemma income_tax_closed_form (cfg : TaxConfig) (t : Decimal) :
  0 < t ->
  total (calculate_income_tax cfg t) ==
    Qmin (Qmin t (additional_rate_threshold cfg)) (higher_rate_threshold cfg)
      * basic_rate cfg
    + Qmax 0 (Qmin t (additional_rate_threshold cfg)
              - higher_rate_threshold cfg) * higher_rate cfg
    + Qmax 0 (t - additional_rate_threshold cfg) * additional_rate cfg.
Proof.
  intro Hpos. unfold calculate_income_tax.
  set (art := additional_rate_threshold cfg).
  set (hrt := higher_rate_threshold cfg).
  assert (E0 : le t 0 = false) by (apply le_false_iff; exact Hpos).
  rewrite E0.
  case_gt t art; [case_gt art hrt | case_gt t hrt];
    cbn [total]; minmax; ring.
Qed.

Lemma Qmult_mono_nonneg (a b r : Q) : 0 <= r -> a <= b -> a * r <= b * r.
Proof. intros Hr Hab. nra. Qed.

Lemma income_tax_nonneg (cfg : TaxConfig) (t : Decimal) :
  Cond.plausible cfg -> 0 <= total (calculate_income_tax cfg t).
Proof.
  intros [Hb Hh Ha Ht Hord _ _ _ _ _].
  destruct (Qlt_le_dec 0 t) as [Hpos | Hneg].
  - rewrite income_tax_closed_form by exact Hpos.
    set (art := additional_rate_threshold cfg) in *.
    set (hrt := higher_rate_threshold cfg) in *.
    assert (0 <= Qmin (Qmin t art) hrt)
      by (apply Q.min_glb; [apply Q.min_glb|]; lra).
    assert (0 <= Qmax 0 (Qmin t art - hrt)) by apply Q.le_max_l.
    assert (0 <= Qmax 0 (t - art)) by apply Q.le_max_l.
    nra.
  - rewrite (income_tax_nonpositive cfg t Hneg). lra.
Qed.

(** X3: under a plausible configuration the income tax is never negative
    and never decreases when the taxable income grows. *)
Theorem income_tax_monotone (cfg : TaxConfig) (t1 t2 : Decimal) :
  Cond.plausible cfg ->
  t1 <= t2 ->
  0 <= total (calculate_income_tax cfg t1)
  /\ total (calculate_income_tax cfg t1)
     <= total (calculate_income_tax cfg t2).
Proof.
  intros Hcfg Hle.
  split; [now apply income_tax_nonneg|].
  destruct Hcfg as [Hb Hh Ha Ht Hord Hn1 Hn2 Hn3 Hs1 Hs2].
  assert (Hcfg : Cond.plausible cfg) by (constructor; assumption).
  destruct (Qlt_le_dec 0 t1) as [P1 | N1].
  - 
    rewrite !income_tax_closed_form by lra.
    set (art := additional_rate_threshold cfg) in *.
    set (hrt := higher_rate_threshold cfg) in *.
    assert (M1 : Qmin t1 art <= Qmin t2 art)
      by (apply Q.min_le_compat_r; exact Hle).
    assert (M2 : Qmin (Qmin t1 art) hrt <= Qmin (Qmin t2 art) hrt)
      by (apply Q.min_le_compat_r; exact M1).
    assert (M3 : Qmax 0 (Qmin t1 art - hrt) <= Qmax 0 (Qmin t2 art - hrt))
      by (apply Q.max_le_compat_l; lra).
    assert (M4 : Qmax 0 (t1 - art) <= Qmax 0 (t2 - art))
      by (apply Q.max_le_compat_l; lra).
    pose proof (Qmult_mono_nonneg _ _ _ Hb M2).
    pose proof (Qmult_mono_nonneg _ _ _ Hh M3).
    pose proof (Qmult_mono_nonneg _ _ _ Ha M4).
    lra.
  - rewrite (income_tax_nonpositive cfg t1 N1).
    now apply income_tax_nonneg.
Qed.

Lemma income_tax_monotone_witness :
  0 <= total (calculate_income_tax default_config 30000)
  /\ total (calculate_income_tax default_config 30000)
     <= total (calculate_income_tax default_config 60000).
Proof.
  apply (income_tax_monotone default_config 30000 60000).
  - constructor; cbn; unfold Qle; cbn; lia.
  - unfold Qle; simpl; lia.
Defined.

Lemma national_insurance_closed_form (cfg : TaxConfig) (t : Decimal) :
  0 < t ->
  calculate_national_insurance cfg t ==
    Qmax 0 (t - ni_threshold cfg) * ni_rate_low cfg
    + Qmin t (ni_threshold cfg) * ni_rate_high cfg.
Proof.
  intro Hpos. unfold calculate_national_insurance.
  assert (E0 : le t 0 = false) by (apply le_false_iff; exact Hpos).
  rewrite E0. case_gt t (ni_threshold cfg); minmax; ring.
Qed.

Lemma national_insurance_nonneg (cfg : TaxConfig) (t : Decimal) :
  0 <= ni_rate_high cfg -> 0 <= ni_rate_low cfg -> 0 <= ni_threshold cfg ->
  0 <= calculate_national_insurance cfg t.
Proof.
  intros Hh Hl Ht.
  destruct (Qlt_le_dec 0 t) as [P | N].
  - rewrite national_insurance_closed_form by exact P.
    assert (0 <= Qmax 0 (t - ni_threshold cfg)) by apply Q.le_max_l.
    assert (0 <= Qmin t (ni_threshold cfg)) by (apply Q.min_glb; lra).
    nra.
  - rewrite (national_insurance_nonpositive cfg t N). lra.
Qed.

(** X4: when the two insurance rates and the insurance threshold are not
    negative, the national insurance is never negative and never decreases
    when the income grows; nothing is asked of the rest of the
    configuration. *)
Theorem national_insurance_monotone (cfg : TaxConfig) (t1 t2 : Decimal) :
  0 <= ni_rate_high cfg ->
  0 <= ni_rate_low cfg ->
  0 <= ni_threshold cfg ->
  t1 <= t2 ->
  0 <= calculate_national_insurance cfg t1
  /\ calculate_national_insurance cfg t1
     <= calculate_national_insurance cfg t2.
Proof.
  intros Hh Hl Ht Hle. split; [now apply national_insurance_nonneg|].
  destruct (Qlt_le_dec 0 t1) as [P1 | N1].
  - rewrite !national_insurance_closed_form by lra.
    assert (M1 : Qmax 0 (t1 - ni_threshold cfg)
                 <= Qmax 0 (t2 - ni_threshold cfg))
      by (apply Q.max_le_compat_l; lra).
    assert (M2 : Qmin t1 (ni_threshold cfg) <= Qmin t2 (ni_threshold cfg))
      by (apply Q.min_le_compat_r; exact Hle).
    pose proof (Qmult_mono_nonneg _ _ _ Hl M1).
    pose proof (Qmult_mono_nonneg _ _ _ Hh M2).
    lra.
  - rewrite (national_insurance_nonpositive cfg t1 N1).
    now apply national_insurance_nonneg.
Qed.

Lemma national_insurance_monotone_witness :
  0 <= calculate_national_insurance default_config 40000
  /\ calculate_national_insurance default_config 40000
     <= calculate_national_insurance default_config 70000.
Proof.
  apply (national_insurance_monotone default_config 40000 70000).
  - unfold Qle; simpl; lia.
  - unfold Qle; simpl; lia.
  - unfold Qle; simpl; lia.
  - unfold Qle; simpl; lia.
Defined.

(** The constants of a recognised plan. *)
Lemma student_loan_cases (cfg : TaxConfig) (gross : Decimal) (plan : string) :
  (exists threshold rate,
     calculate_student_loan cfg gross plan
       = Ok (if le gross threshold then 0 else (gross - threshold) * rate)
     /\ ((lower plan = "plan1"
          /\ threshold = student_loan_plan1_threshold cfg
          /\ rate = student_loan_plan1_rate cfg)
         \/ (lower plan = "plan2"
             /\ threshold = student_loan_plan2_threshold cfg
             /\ rate = student_loan_plan2_rate cfg)))
  \/ (calculate_student_loan cfg gross plan
        = Raise (ValueError ("Unknown student loan plan: " ++ plan))
      /\ lower plan <> "plan1" /\ lower plan <> "plan2").
Proof.
  unfold calculate_student_loan.
  destruct (String.eqb (lower plan) "plan1") eqn:E1.
  - apply String.eqb_eq in E1. left.
    exists (student_loan_plan1_threshold cfg), (student_loan_plan1_rate cfg).
    cbn [bind]. rewrite student_loan_known. auto.
  - apply String.eqb_neq in E1.
    destruct (String.eqb (lower plan) "plan2") eqn:E2.
    + apply String.eqb_eq in E2. left.
      exists (student_loan_plan2_threshold cfg), (student_loan_plan2_rate cfg).
      cbn [bind]. rewrite student_loan_known. auto.
    + apply String.eqb_neq in E2. right. cbn [bind]. auto.
Qed.

Lemma repayment_monotone (threshold rate g1 g2 : Decimal) :
  0 <= rate -> g1 <= g2 ->
  0 <= (if le g1 threshold then 0 else (g1 - threshold) * rate)
  /\ (if le g1 threshold then 0 else (g1 - threshold) * rate)
     <= (if le g2 threshold then 0 else (g2 - threshold) * rate).
Proof.
  intros Hr Hle. case_le g1 threshold; case_le g2 threshold;
    split; try lra; nra.
Qed.

(** X5: with non-negative repayment rates the student loan repayment is
    never negative and never decreases when the gross salary grows; whether
    the plan is recognised does not depend on the salary. *)
Theorem student_loan_monotone (cfg : TaxConfig) (g1 g2 : Decimal)
    (plan : string) :
  0 <= student_loan_plan1_rate cfg ->
  0 <= student_loan_plan2_rate cfg ->
  g1 <= g2 ->
  match calculate_student_loan cfg g1 plan,
        calculate_student_loan cfg g2 plan with
  | Ok r1, Ok r2 => 0 <= r1 /\ r1 <= r2
  | Raise e1, Raise e2 => e1 = e2
  | _, _ => False
  end.
Proof.
  intros H1 H2 Hle.
  destruct (student_loan_cases cfg g1 plan)
    as [[th1 [rt1 [E1 C1]]] | [E1 [N1 N2]]];
  destruct (student_loan_cases cfg g2 plan)
    as [[th2 [rt2 [E2 C2]]] | [E2 [M1 M2]]];
  rewrite E1, E2.
  - assert (th1 = th2 /\ rt1 = rt2 /\ 0 <= rt1) as [<- [<- Hr]].
    { destruct C1 as [[P1 [-> ->]] | [P1 [-> ->]]];
      destruct C2 as [[P2 [-> ->]] | [P2 [-> ->]]];
      try (rewrite P1 in P2; discriminate P2); auto. }
    now apply repayment_monotone.
  - destruct C1 as [[P _] | [P _]]; contradiction.
  - destruct C2 as [[P _] | [P _]]; contradiction.
  - reflexivity.
Qed.

Lemma student_loan_monotone_witness :
  match calculate_student_loan default_config 30000 "Plan2",
        calculate_student_loan default_config 45000 "Plan2" with
  | Ok r1, Ok r2 => 0 <= r1 /\ r1 <= r2
  | Raise e1, Raise e2 => e1 = e2
  | _, _ => False
  end.
Proof.
  apply (student_loan_monotone default_config 30000 45000 "Plan2").
  - unfold Qle; simpl; lia.
  - unfold Qle; simpl; lia.
  - unfold Qle; simpl; lia.
Defined.





(** * Further properties of the block manager *)

Lemma mem_In (x : string) (l : list string) : mem x l = true <-> In x l.
Proof.
  unfold mem. rewrite existsb_exists. split.
  - intros [y [Hy E]]. apply String.eqb_eq in E. now subst y.
  - intro H. exists x. split; [exact H | apply String.eqb_refl].
Qed.

Lemma mem_false_not_In (x : string) (l : list string) :
  mem x l = false <-> ~ In x l.
Proof.
  rewrite <- mem_In. destruct (mem x l); split; congruence.
Qed.

Lemma distinct_NoDup (l : list string) : Cond.distinct l = true -> NoDup l.
Proof.
  induction l as [|x l IH]; cbn [Cond.distinct]; intro H.
  - constructor.
  - apply andb_true_iff in H. destruct H as [Hx Hl].
    apply negb_true_iff, mem_false_not_In in Hx.
    constructor; [exact Hx | now apply IH].
Qed.

Lemma NoDup_firstn {A : Type} (n : nat) (l : list A) :
  NoDup l -> NoDup (firstn n l).
Proof.
  intro H. rewrite <- (firstn_skipn n l) in H.
  now apply NoDup_app_remove_r in H.
Qed.

Lemma NoDup_snoc {A : Type} (x : A) (l : list A) :
  NoDup l -> ~ In x l -> NoDup (l ++ [x]).
Proof.
  intros Hl Hx. apply NoDup_app; [exact Hl | repeat constructor; auto | ].
  intros y Hy [<- | []]. contradiction.
Qed.

Lemma firstn_In {A : Type} (n : nat) (l : list A) (x : A) :
  In x (firstn n l) -> In x l.
Proof.
  intro H. rewrite <- (firstn_skipn n l). apply in_or_app. now left.
Qed.

(** Every entry of a table satisfies a test that holds of all its items. *)
Lemma get_forallb {V : Type} (p : V -> bool) (d : dict V) (k : string) (v : V) :
  forallb (fun kv => p (snd kv)) d = true -> get k d = Some v -> p v = true.
Proof.
  induction d as [|[k' v'] d IH]; cbn [get forallb]; intros H E.
  - discriminate E.
  - apply andb_true_iff in H. destruct H as [Hv Hd].
    destruct (String.eqb k k'); [inversion E; now subst | now apply IH].
Qed.

Lemma append_new_NoDup (x : string) (l : list string) :
  NoDup l -> NoDup (LegoBlocks.append_new x l).
Proof.
  intro H. unfold LegoBlocks.append_new.
  destruct (mem x l) eqn:E; cbn [negb]; [exact H|].
  apply NoDup_snoc; [exact H | now apply mem_false_not_In].
Qed.

Lemma add_tech_NoDup (text : string) (l : list string) (tech : string) :
  NoDup l -> NoDup (LegoBlocks.add_tech text l tech).
Proof.
  intro H. unfold LegoBlocks.add_tech.
  destruct (contains (lower tech) (lower text)); cbn [andb]; [|exact H].
  destruct (mem tech l) eqn:E; cbn [negb]; [exact H|].
  apply NoDup_snoc; [exact H | now apply mem_false_not_In].
Qed.

Lemma add_tech_In (text : string) (techs l : list string) (s : string) :
  In s (fold_left (LegoBlocks.add_tech text) techs l) ->
  In s l \/ (In s techs /\ contains (lower s) (lower text) = true).
Proof.
  revert l. induction techs as [|t techs IH]; intro l; cbn [fold_left].
  - auto.
  - intro H. apply IH in H. destruct H as [H | [H C]].
    + unfold LegoBlocks.add_tech in H.
      destruct (contains (lower t) (lower text)) eqn:E; cbn [andb] in H;
        [|now left].
      destruct (mem t l); cbn [negb] in H; [now left|].
      apply in_app_or in H. destruct H as [H | [<- | []]]; [now left|].
      right. split; [now left | exact E].
    + right. split; [now right | exact C].
Qed.

(** X9: the skills derived for a block are at most 8 and, unlike the
    keywords, never repeat; each is one of the first three skills of the
    block's category or a technology name that occurs in the content,
    ignoring case. *)
Theorem extract_skills_distinct (text category : string) :
  let skills := LegoBlocks._extract_skills text category in
  (List.length skills <= 8)%nat
  /\ NoDup skills
  /\ forall s, In s skills ->
       (exists l, get category LegoBlocks.CATEGORY_SKILLS = Some l
                  /\ In s (firstn 3 l))
       \/ (In s LegoBlocks.tech_keywords
           /\ contains (lower s) (lower text) = true).
Proof.
  cbv zeta. unfold LegoBlocks._extract_skills.
  set (base := match get category LegoBlocks.CATEGORY_SKILLS with
               | Some l => ([] ++ firstn 3 l)%list
               | None => []
               end).
  assert (Hbase : NoDup base).
  { unfold base.
    destruct (get category LegoBlocks.CATEGORY_SKILLS) as [l|] eqn:E;
      [|constructor].
    cbn [app]. apply distinct_NoDup.
    apply (get_forallb (fun l => Cond.distinct (firstn 3 l))
             LegoBlocks.CATEGORY_SKILLS category l); [reflexivity | exact E]. }
  split; [apply firstn_le_length|]. split.
  - apply NoDup_firstn.
    generalize dependent base. generalize LegoBlocks.tech_keywords.
    intro techs. induction techs as [|t techs IH]; intros base Hbase;
      cbn [fold_left]; [exact Hbase|].
    apply IH. now apply add_tech_NoDup.
  - intros s Hs. apply firstn_In, add_tech_In in Hs.
    destruct Hs as [Hs | Hs]; [left | now right].
    unfold base in Hs.
    destruct (get category LegoBlocks.CATEGORY_SKILLS) as [l|];
      [eauto | destruct Hs].
Qed.

Lemma cond_append_new_NoDup (b : bool) (x : string) (l : list string) :
  NoDup l -> NoDup (if b then LegoBlocks.append_new x l else l).
Proof. destruct b; [apply append_new_NoDup | auto]. Qed.

Lemma senior_NoDup (b : bool) (l : list string) :
  NoDup l ->
  NoDup (if b
         then if negb (mem "Tech Lead" l) && negb (mem "Senior Engineer" l)
              then (l ++ ["Senior Engineer"])%list else l
         else l).
Proof.
  intro H. destruct b; [|exact H].
  destruct (mem "Tech Lead" l); cbn [negb andb]; [exact H|].
  destruct (mem "Senior Engineer" l) eqn:E; cbn [negb]; [exact H|].
  apply NoDup_snoc; [exact H | now apply mem_false_not_In].
Qed.

(** X10: the role types derived for a block are at most 4 and never
    repeat. *)
Theorem infer_role_types_distinct (category title text : string) :
  let roles := LegoBlocks._infer_role_types category title text in
  (List.length roles <= 4)%nat /\ NoDup roles.
Proof.
  cbv zeta. unfold LegoBlocks._infer_role_types.
  split; [apply firstn_le_length|]. apply NoDup_firstn.
  set (r0 := match get category LegoBlocks.CATEGORY_ROLE_TYPES with
             | Some l => ([] ++ firstn 3 l)%list
             | None => []
             end).
  assert (H0 : NoDup r0).
  { unfold r0.
    destruct (get category LegoBlocks.CATEGORY_ROLE_TYPES) as [l|] eqn:E;
      [|constructor].
    cbn [app]. apply distinct_NoDup.
    apply (get_forallb (fun l => Cond.distinct (firstn 3 l))
             LegoBlocks.CATEGORY_ROLE_TYPES category l);
      [reflexivity | exact E]. }
  apply senior_NoDup. apply cond_append_new_NoDup.
  apply cond_append_new_NoDup. exact H0.
Qed.

(** X11: the company types derived for a block are never empty and at most
    3, and "Startup" and "Scale-up" are given together or not at all, the
    cut to three entries included. *)
Theorem infer_company_types_shape (category title text : string) :
  let types := LegoBlocks._infer_company_types category title text in
  (1 <= List.length types <= 3)%nat
  /\ (In "Startup" types <-> In "Scale-up" types).
Proof.
  cbv zeta. unfold LegoBlocks._infer_company_types.
  destruct (LegoBlocks.any_in _ text);
    destruct (LegoBlocks.any_in _ text);
    destruct (contains "$" text || contains "revenue" (lower text)
              || contains "cost savings" (lower text));
    destruct (String.eqb category _);
    cbn;
    (split; [lia|]);
    split; intro H;
    repeat match goal with
           | H : _ \/ _ |- _ => destruct H as [H | H]
           | H : False |- _ => destruct H
           | H : _ = _ |- _ => discriminate H
           end; auto.
Qed.

Lemma strength_level_cases (text : string) :
  In (LegoBlocks._determine_strength_level text) Cond.levels.
Proof.
  unfold LegoBlocks._determine_strength_level.
  repeat match goal with
         | |- context [if ?c then _ else _] => destruct c
         end; cbn; auto.
Qed.

Lemma strength_boost_known (level : string) :
  In level Cond.levels -> 1 # 2 <= LegoBlocks.strength_boost level.
Proof.
  intros [<- | [<- | [<- | []]]]; unfold Qle; cbn; lia.
Qed.

Lemma Qsum_nonneg (l : list Q) : Forall (fun x => 0 <= x) l -> 0 <= Qsum l.
Proof.
  induction 1 as [|x l Hx _ IH].
  - unfold Qsum, fold_right. lra.
  - rewrite Qsum_cons. lra.
Qed.

Lemma Qsum_map_nonneg {X : Type} (g : X -> Q) (l : list X) :
  (forall x, 0 <= g x) -> 0 <= Qsum (map g l).
Proof.
  intro H. apply Qsum_nonneg, Forall_forall.
  intros y Hy. apply in_map_iff in Hy. destruct Hy as [x [<- _]]. apply H.
Qed.

Lemma tier_bonus_nonneg (block : LegoBlocks.LegoBlock) (req : string) :
  0 <= tier_bonus block req.
Proof.
  unfold tier_bonus.
  repeat match goal with
         | |- context [if ?c then _ else _] => destruct c
         end; unfold Qle; cbn; lia.
Qed.

Lemma skill_bonus_nonneg (block : LegoBlocks.LegoBlock) (skill : string) :
  0 <= skill_bonus block skill.
Proof.
  unfold skill_bonus.
  repeat match goal with
         | |- context [if ?c then _ else _] => destruct c
         end; unfold Qle; cbn; lia.
Qed.

Lemma density_bonus_nonneg (block : LegoBlocks.LegoBlock) (req : string) :
  0 <= density_bonus block req.
Proof.
  unfold density_bonus.
  destruct (phrase_in req _); unfold Qle; cbn; lia.
Qed.

Lemma role_bonus_nonneg (block : LegoBlocks.LegoBlock) (r : option string) :
  0 <= role_bonus block r.
Proof.
  unfold role_bonus. destruct r as [r|]; [|lra].
  destruct (negb _ && _); unfold Qle; cbn; lia.
Qed.

(** X12: the strength level derived from a content is always one of
    "good", "strong" and "essential", so in [rank_blocks] a block that
    carries a derived level scores at least 0.5, whatever the job asks
    for. *)
Theorem derived_strength_scores (text : string)
    (block : LegoBlocks.LegoBlock) (job_requirements : list string)
    (required_skills : option (list string)) (preferred_role : option string) :
  LegoBlocks.strength_level block = LegoBlocks._determine_strength_level text ->
  In (LegoBlocks.strength_level block) Cond.levels
  /\ 1 # 2 <= LegoBlocks.block_score job_requirements required_skills
                preferred_role block.
Proof.
  intro E.
  assert (Hl : In (LegoBlocks.strength_level block) Cond.levels)
    by (rewrite E; apply strength_level_cases).
  split; [exact Hl|].
  rewrite block_score_formula.
  pose proof (strength_boost_known _ Hl).
  pose proof (Qsum_map_nonneg (tier_bonus block) job_requirements
                (tier_bonus_nonneg block)).
  pose proof (Qsum_map_nonneg (skill_bonus block) (or_empty required_skills)
                (skill_bonus_nonneg block)).
  pose proof (Qsum_map_nonneg (density_bonus block) job_requirements
                (density_bonus_nonneg block)).
  pose proof (role_bonus_nonneg block preferred_role).
  lra.
Qed.

Lemma derived_strength_scores_witness :
  In (LegoBlocks.strength_level Sample.python_block) Cond.levels
  /\ 1 # 2 <= LegoBlocks.block_score ["go"] None None Sample.python_block.
Proof.
  apply (derived_strength_scores "led 3 teams" Sample.python_block ["go"]
           None None).
  reflexivity.
Defined.

(** X13: the decision table of the strength level.  With [top] a top
    impact marker in the content, [mid] a second-tier marker, [lead] an
    ownership verb, [make] a creation verb and [whole] a completeness word
    in the lowered content: the level is "essential" exactly when [top]
    comes with [lead], or with [make] and [whole], or [mid] comes with
    [lead] and [whole]. *)
Theorem strength_level_essential (text : string) :
  let top :=
    LegoBlocks.any_in ["$10M"; "1B+"; "PB+"; "17 countries"; "500M"] text in
  let mid := LegoBlocks.any_in ["$"; "M+"; "TB+"; "international"] text in
  let lead :=
    LegoBlocks.any_in ["led"; "architected"; "built"; "designed";
                       "sole engineer"] text in
  let make := LegoBlocks.any_in ["developed"; "implemented"; "created"] text in
  let whole :=
    LegoBlocks.any_in ["zero"; "100%"; "complete"; "comprehensive"]
                      (lower text) in
  String.eqb (LegoBlocks._determine_strength_level text) "essential"
  = (top && (lead || (make && whole)))
    || (negb top && mid && lead && whole).
Proof.
  cbv zeta. unfold LegoBlocks._determine_strength_level.
  destruct (LegoBlocks.any_in ["$10M"; _; _; _; _] text);
    destruct (LegoBlocks.any_in ["$"; _; _; _] text);
    destruct (search (plus is_digit) text);
    destruct (LegoBlocks.any_in ["led"; _; _; _; _] text);
    destruct (LegoBlocks.any_in ["developed"; _; _] text);
    destruct (LegoBlocks.any_in ["zero"; _; _; _] (lower text));
    reflexivity.
Qed.

Lemma Qsum_perm (l1 l2 : list Q) : Permutation l1 l2 -> Qsum l1 == Qsum l2.
Proof.
  induction 1 as [|x l1 l2 _ IH|x y l|l1 l2 l3 _ IH1 _ IH2].
  - reflexivity.
  - rewrite !Qsum_cons, IH. reflexivity.
  - rewrite !Qsum_cons. ring.
  - now rewrite IH1.
Qed.

(** X14: the score of a block does not depend on the order in which the
    job lists its requirement phrases or its required skills. *)
Theorem block_score_order_free (block : LegoBlocks.LegoBlock)
    (reqs1 reqs2 : list string) (skills1 skills2 : option (list string))
    (preferred_role : option string) :
  Permutation reqs1 reqs2 ->
  Permutation (or_empty skills1) (or_empty skills2) ->
  LegoBlocks.block_score reqs1 skills1 preferred_role block
  == LegoBlocks.block_score reqs2 skills2 preferred_role block.
Proof.
  intros Hr Hs. rewrite !block_score_formula.
  rewrite (Qsum_perm _ _ (Permutation_map (tier_bonus block) Hr)).
  rewrite (Qsum_perm _ _ (Permutation_map (density_bonus block) Hr)).
  rewrite (Qsum_perm _ _ (Permutation_map (skill_bonus block) Hs)).
  reflexivity.
Qed.

Lemma block_score_order_free_witness :
  LegoBlocks.block_score ["python"; "aws"] (Some ["SQL"; "Python"]) None
    Sample.python_block
  == LegoBlocks.block_score ["aws"; "python"] (Some ["Python"; "SQL"]) None
       Sample.python_block.
Proof.
  apply (block_score_order_free Sample.python_block
           ["python"; "aws"] ["aws"; "python"]
           (Some ["SQL"; "Python"]) (Some ["Python"; "SQL"]) None).
  - apply perm_swap.
  - apply perm_swap.
Defined.

Lemma casing_lower_eq (a b : string) :
  casing_of a b = true -> lower a = lower b.
Proof. rewrite casing_of_lower. apply String.eqb_eq. Qed.

Lemma fold_left_casing {S : Type} (f : S -> string -> S) (l1 l2 : list string)
    (s : S) :
  (forall s a b, lower a = lower b -> f s a = f s b) ->
  Forall2 (fun a b => casing_of a b = true) l1 l2 ->
  fold_left f l1 s = fold_left f l2 s.
Proof.
  intros Hf H. revert s.
  induction H as [|a b l1 l2 Hab _ IH]; intro s; cbn [fold_left].
  - reflexivity.
  - rewrite (Hf s a b (casing_lower_eq a b Hab)). apply IH.
Qed.

Lemma filter_length_casing (p : string -> bool) (l1 l2 : list string) :
  (forall a b, lower a = lower b -> p a = p b) ->
  Forall2 (fun a b => casing_of a b = true) l1 l2 ->
  List.length (filter p l1) = List.length (filter p l2).
Proof.
  intros Hp H. induction H as [|a b l1 l2 Hab _ IH]; cbn [filter].
  - reflexivity.
  - rewrite (Hp a b (casing_lower_eq a b Hab)).
    destruct (p b); cbn [List.length]; now rewrite IH.
Qed.

(** X15: the score ignores the ASCII letter case of what the job asks
    for: rewriting requirement phrases and required skills with some of
    their letters A-Z and a-z in the other case, every other character
    kept, leaves the score of every block unchanged. *)
Theorem block_score_ignores_case (block : LegoBlocks.LegoBlock)
    (reqs1 reqs2 skills1 skills2 : list string)
    (preferred_role : option string) :
  Forall2 (fun a b => casing_of a b = true) reqs1 reqs2 ->
  Forall2 (fun a b => casing_of a b = true) skills1 skills2 ->
  LegoBlocks.block_score reqs1 (Some skills1) preferred_role block
  = LegoBlocks.block_score reqs2 (Some skills2) preferred_role block.
Proof.
  intros Hr Hs. unfold LegoBlocks.block_score.
  rewrite (fold_left_casing (LegoBlocks.add_requirement block) reqs1 reqs2);
    [|intros s a b E; unfold LegoBlocks.add_requirement; now rewrite E
     |exact Hr].
  cbn [or_empty].
  rewrite (fold_left_casing (LegoBlocks.add_skill block) skills1 skills2);
    [|intros s a b E; unfold LegoBlocks.add_skill; now rewrite E
     |exact Hs].
  rewrite (filter_length_casing
             (fun req => contains (lower req)
                           (lower (LegoBlocks.content block)))
             reqs1 reqs2);
    [reflexivity | intros a b E; now rewrite E | exact Hr].
Qed.

Lemma block_score_ignores_case_witness :
  LegoBlocks.block_score ["PYTHON"] (Some ["sql"]) None Sample.python_block
  = LegoBlocks.block_score ["python"] (Some ["SQL"]) None Sample.python_block.
Proof.
  apply (block_score_ignores_case Sample.python_block
           ["PYTHON"] ["python"] ["sql"] ["SQL"] None).
  - constructor; [reflexivity | constructor].
  - constructor; [reflexivity | constructor].
Defined.

Lemma filter_filter {A : Type} (p q : A -> bool) (l : list A) :
  filter q (filter p l) = filter (fun x => p x && q x) l.
Proof.
  induction l as [|x l IH]; [reflexivity|]. cbn [filter].
  destruct (p x); cbn [andb filter]; [destruct (q x)|]; now rewrite IH.
Qed.

Lemma filter_all {A : Type} (p : A -> bool) (l : list A) :
  (forall x, p x = true) -> filter p l = l.
Proof.
  intro H. induction l as [|x l IH]; [reflexivity|].
  cbn [filter]. now rewrite H, IH.
Qed.

Lemma filter_ext_all {A : Type} (p q : A -> bool) (l : list A) :
  (forall x, p x = q x) -> filter p l = filter q l.
Proof.
  intro H. induction l as [|x l IH]; [reflexivity|].
  cbn [filter]. now rewrite H, IH.
Qed.

(** X16: [search_blocks] returns, in their original order, exactly the
    blocks that meet all the criteria given; criteria that are [None] or
    empty (an empty string, an empty list) filter nothing, so a search
    without criteria returns every block. *)
Theorem search_blocks_meets (blocks : list LegoBlocks.LegoBlock)
    (skills_wanted : option (list string))
    (role_type category_wanted : option string)
    (keywords_wanted : option (list string))
    (strength_wanted : option string) :
  LegoBlocks.search_blocks blocks skills_wanted role_type category_wanted
    keywords_wanted strength_wanted
  = filter (Cond.meets skills_wanted role_type category_wanted
              keywords_wanted strength_wanted) blocks
  /\ LegoBlocks.search_blocks blocks None None None None None = blocks
  /\ LegoBlocks.search_blocks blocks (Some []) (Some EmptyString)
       (Some EmptyString) (Some []) (Some EmptyString) = blocks.
Proof.
  split; [|split; reflexivity].
  unfold LegoBlocks.search_blocks, Cond.meets. cbv zeta.
  destruct (nonempty category_wanted) as [c|];
    destruct (nonempty role_type) as [r|];
    destruct (or_empty skills_wanted) as [|s0 sw];
    destruct (or_empty keywords_wanted) as [|k0 kw];
    destruct (nonempty strength_wanted) as [lv|];
    rewrite ?filter_filter;
    first [ symmetry; apply filter_all; reflexivity
          | apply filter_ext_all; intro b; cbn beta;
            rewrite <- ?andb_assoc; cbn [andb];
            rewrite ?andb_true_r; reflexivity ].
Qed.

Lemma level_rank_nonneg (level : string) :
  (0 <= LegoBlocks.level_rank level)%Z.
Proof.
  unfold LegoBlocks.level_rank, LegoBlocks.level_order. cbn [get].
  repeat match goal with
         | |- context [if ?c then _ else _] => destruct c
         end; lia.
Qed.

(** X17: a strength level that is not one of the three known levels is
    looked up as rank 0, like "good": searching with it filters nothing
    more than searching without a strength level. *)
Theorem search_blocks_unknown_strength (blocks : list LegoBlocks.LegoBlock)
    (skills_wanted : option (list string))
    (role_type category_wanted : option string)
    (keywords_wanted : option (list string)) (level : string) :
  level <> "strong" ->
  level <> "essential" ->
  LegoBlocks.search_blocks blocks skills_wanted role_type category_wanted
    keywords_wanted (Some level)
  = LegoBlocks.search_blocks blocks skills_wanted role_type category_wanted
      keywords_wanted None.
Proof.
  intros H1 H2. unfold LegoBlocks.search_blocks. cbv zeta.
  destruct level as [|c level]; [reflexivity|]. cbn [nonempty].
  set (lv := String c level) in *.
  assert (E : LegoBlocks.level_rank lv = 0%Z).
  { unfold LegoBlocks.level_rank, LegoBlocks.level_order. cbn [get].
    destruct (String.eqb lv "good"); [reflexivity|].
    destruct (String.eqb_spec lv "strong"); [contradiction|].
    destruct (String.eqb_spec lv "essential"); [contradiction|].
    reflexivity. }
  rewrite E. apply filter_all. intro b.
  apply Z.leb_le, level_rank_nonneg.
Qed.

Lemma search_blocks_unknown_strength_witness :
  LegoBlocks.search_blocks [Sample.python_block] None None None None
    (Some "excellent")
  = LegoBlocks.search_blocks [Sample.python_block] None None None None None.
Proof.
  apply (search_blocks_unknown_strength [Sample.python_block] None None None
           None "excellent").
  - discriminate.
  - discriminate.
Defined.

(** ** Dicts in insertion order *)

Lemma get_upsert {V : Type} (f : option V -> V) (d : dict V) (k c : string) :
  get c (upsert k f d) =
  if String.eqb c k then Some (f (get k d)) else get c d.
Proof.
  induction d as [|[k' v] d IH]; cbn [upsert get].
  - destruct (String.eqb c k); reflexivity.
  - destruct (String.eqb k k') eqn:Ek; cbn [get].
    + apply String.eqb_eq in Ek. subst k'.
      destruct (String.eqb c k); reflexivity.
    + rewrite IH. destruct (String.eqb c k) eqn:Ec; [|reflexivity].
      apply String.eqb_eq in Ec. subst c. now rewrite Ek.
Qed.

Lemma keys_upsert {V : Type} (f : option V -> V) (d : dict V) (k : string) :
  map fst (upsert k f d) =
  if mem k (map fst d) then map fst d else (map fst d ++ [k])%list.
Proof.
  induction d as [|[k' v] d IH]; cbn [upsert map fst]; [reflexivity|].
  unfold mem in *. cbn [existsb].
  destruct (String.eqb k k'); cbn [orb map fst]; [reflexivity|].
  rewrite IH. destruct (existsb (String.eqb k) (map fst d)); reflexivity.
Qed.

Lemma keys_upsert_NoDup {V : Type} (f : option V -> V) (d : dict V)
    (k : string) :
  NoDup (map fst d) -> NoDup (map fst (upsert k f d)).
Proof.
  intro H. rewrite keys_upsert.
  destruct (mem k (map fst d)) eqn:E; [exact H|].
  apply NoDup_snoc; [exact H | now apply mem_false_not_In].
Qed.

Lemma group_append_items {V : Type} (k : string) (v : V) (d : dict (list V)) :
  Permutation (List.concat (map snd (LegoBlocks.group_append k v d)))
              (List.concat (map snd d) ++ [v]).
Proof.
  unfold LegoBlocks.group_append.
  induction d as [|[k' vs] d IH]; cbn [upsert map snd List.concat].
  - apply Permutation_refl.
  - destruct (String.eqb k k'); cbn [map snd List.concat].
    + rewrite <- !app_assoc. apply Permutation_app_head.
      apply Permutation_app_comm.
    + rewrite <- app_assoc. now apply Permutation_app_head.
Qed.

Lemma grouped_get (blocks : list LegoBlocks.LegoBlock)
    (d : dict (list LegoBlocks.LegoBlock)) (c : string) :
  get c (fold_left
           (fun grouped block =>
              LegoBlocks.group_append (LegoBlocks.category block) block grouped)
           blocks d)
  = match Cond.of_category c blocks with
    | [] => get c d
    | l => Some (or_empty (get c d) ++ l)%list
    end.
Proof.
  revert d. induction blocks as [|b blocks IH]; intro d; [reflexivity|].
  cbn [fold_left]. rewrite IH. unfold LegoBlocks.group_append.
  rewrite get_upsert. unfold Cond.of_category. cbn [filter].
  rewrite (String.eqb_sym (LegoBlocks.category b) c).
  destruct (String.eqb c (LegoBlocks.category b)) eqn:Ec; [|reflexivity].
  apply String.eqb_eq in Ec. subst c.
  destruct (filter _ blocks) as [|x l];
    destruct (get (LegoBlocks.category b) d); cbn [or_empty app];
    try reflexivity; now rewrite <- app_assoc.
Qed.

(** X18: [get_blocks_by_category] files every block under its category:
    looking a category up gives the blocks of that category in their
    original order, a category without blocks is not a key, no key is
    listed twice, and the groups together hold each block once. *)
Theorem blocks_by_category_groups (blocks : list LegoBlocks.LegoBlock) :
  let grouped := LegoBlocks.get_blocks_by_category blocks in
  (forall c, get c grouped = match Cond.of_category c blocks with
                             | [] => None
                             | l => Some l
                             end)
  /\ NoDup (map fst grouped)
  /\ Permutation (List.concat (map snd grouped)) blocks.
Proof.
  cbv zeta. unfold LegoBlocks.get_blocks_by_category. split; [|split].
  - intro c. rewrite grouped_get. reflexivity.
  - assert (G : forall d : dict (list LegoBlocks.LegoBlock),
               NoDup (map fst d) ->
               NoDup (map fst
                 (fold_left
                    (fun grouped block =>
                       LegoBlocks.group_append (LegoBlocks.category block)
                         block grouped) blocks d))).
    { induction blocks as [|b blocks IH]; intros d Hd; [exact Hd|].
      cbn [fold_left]. apply IH. now apply keys_upsert_NoDup. }
    apply G. constructor.
  - assert (G : forall d : dict (list LegoBlocks.LegoBlock),
               Permutation
                 (List.concat (map snd
                   (fold_left
                      (fun grouped block =>
                         LegoBlocks.group_append (LegoBlocks.category block)
                           block grouped) blocks d)))
                 (List.concat (map snd d) ++ blocks)).
    { induction blocks as [|b blocks IH]; intro d; cbn [fold_left].
      - rewrite app_nil_r. apply Permutation_refl.
      - eapply perm_trans; [apply IH|].
        eapply perm_trans;
          [apply Permutation_app_tail, group_append_items|].
        rewrite <- app_assoc. apply Permutation_refl. }
    apply (G []).
Qed.

Lemma get_count_up (d : dict Z) (k c : string) :
  get c (LegoBlocks.count_up k d) =
  if String.eqb c k
  then Some (match get k d with Some n => n + 1 | None => 1 end)%Z
  else get c d.
Proof. unfold LegoBlocks.count_up. rewrite get_upsert. reflexivity. Qed.

Lemma breakdowns_spec (blocks : list LegoBlocks.LegoBlock)
    (bc bs : dict Z) :
  match LegoBlocks.breakdowns blocks bc bs with
  | inr (bc', bs') =>
      (forall b, In b blocks -> get (LegoBlocks.strength_level b) bs <> None)
      /\ (forall l, get l bs' =
            match get l bs with
            | Some n =>
                Some (n + Z.of_nat (List.length (Cond.of_level l blocks)))%Z
            | None => None
            end)
      /\ (forall c, get c bc' =
            match Cond.of_category c blocks with
            | [] => get c bc
            | l => Some (match get c bc with Some n => n | None => 0 end
                         + Z.of_nat (List.length l))%Z
            end)
  | inl (KeyError k) =>
      get k bs = None
      /\ exists b, In b blocks /\ LegoBlocks.strength_level b = k
  end.
Proof.
  revert bc bs. induction blocks as [|b blocks IH]; intros bc bs.
  - cbn [LegoBlocks.breakdowns]. split; [intros b []|]. split.
    + intro l. cbn. destruct (get l bs); [f_equal; lia | reflexivity].
    + intro c. reflexivity.
  - cbn [LegoBlocks.breakdowns]. unfold LegoBlocks.count_existing.
    destruct (get (LegoBlocks.strength_level b) bs) as [n0|] eqn:E0.
    + specialize (IH (LegoBlocks.count_up (LegoBlocks.category b) bc)
                     (LegoBlocks.count_up (LegoBlocks.strength_level b) bs)).
      destruct (LegoBlocks.breakdowns blocks _ _) as [[k] | [bc' bs']].
      * destruct IH as [Hk [b' [Hb' Ek]]].
        rewrite get_count_up in Hk.
        destruct (String.eqb k (LegoBlocks.strength_level b));
          [discriminate Hk|].
        split; [exact Hk|]. exists b'. split; [now right | exact Ek].
      * destruct IH as [Hknown [Hs Hc]]. split; [|split].
        -- intros b' [<- | Hb']; [congruence|].
           specialize (Hknown b' Hb'). rewrite get_count_up in Hknown.
           destruct (String.eqb (LegoBlocks.strength_level b')
                                (LegoBlocks.strength_level b)) eqn:Eb;
             [|exact Hknown].
           apply String.eqb_eq in Eb. congruence.
        -- intro l. rewrite Hs, get_count_up.
           unfold Cond.of_level. cbn [filter].
           rewrite (String.eqb_sym (LegoBlocks.strength_level b) l).
           destruct (String.eqb l (LegoBlocks.strength_level b)) eqn:El.
           ++ apply String.eqb_eq in El. subst l. rewrite E0.
              cbn [List.length]. f_equal. lia.
           ++ destruct (get l bs); reflexivity.
        -- intro c. rewrite Hc, get_count_up.
           unfold Cond.of_category. cbn [filter].
           rewrite (String.eqb_sym (LegoBlocks.category b) c).
           destruct (String.eqb c (LegoBlocks.category b)) eqn:Ec.
           ++ apply String.eqb_eq in Ec. subst c.
              destruct (filter _ blocks) as [|x l];
                destruct (get (LegoBlocks.category b) bc);
                cbn [List.length]; f_equal; lia.
           ++ reflexivity.
    + split; [exact E0|]. exists b. split; [now left | reflexivity].
Qed.

Lemma get_initial_strength (l : string) :
  get l [("essential", 0%Z); ("strong", 0%Z); ("good", 0%Z)]
  = if mem l Cond.levels then Some 0%Z else None.
Proof.
  unfold mem, Cond.levels. cbn [get existsb].
  destruct (String.eqb l "essential"), (String.eqb l "strong"),
    (String.eqb l "good"); reflexivity.
Qed.

(** X19: [get_summary_stats] raises [KeyError] exactly when some block
    carries a strength level other than the three known ones, the key being
    such a level.  Otherwise the count of blocks is the length of the list,
    the strength breakdown counts the blocks of each level, the category
    breakdown counts the blocks of each category that has any, and the two
    top lists have at most 10 entries. *)
Theorem summary_stats_counts (blocks : list LegoBlocks.LegoBlock) :
  match LegoBlocks.get_summary_stats blocks with
  | inr st =>
      Forall (fun b => In (LegoBlocks.strength_level b) Cond.levels) blocks
      /\ LegoBlocks.total_blocks st = List.length blocks
      /\ (forall l, In l Cond.levels ->
            get l (LegoBlocks.strength_breakdown st)
            = Some (Z.of_nat (List.length (Cond.of_level l blocks))))
      /\ (forall c, get c (LegoBlocks.category_breakdown st)
            = match Cond.of_category c blocks with
              | [] => None
              | l => Some (Z.of_nat (List.length l))
              end)
      /\ (List.length (LegoBlocks.top_skills st) <= 10)%nat
      /\ (List.length (LegoBlocks.top_role_types st) <= 10)%nat
  | inl (KeyError k) =>
      ~ In k Cond.levels
      /\ exists b, In b blocks /\ LegoBlocks.strength_level b = k
  end.
Proof.
  unfold LegoBlocks.get_summary_stats.
  pose proof (breakdowns_spec blocks []
                [("essential", 0%Z); ("strong", 0%Z); ("good", 0%Z)]) as H.
  destruct (LegoBlocks.breakdowns blocks _ _) as [[k] | [bc bs]].
  - destruct H as [Hk Hb]. split; [|exact Hb].
    rewrite get_initial_strength in Hk. intro Hin.
    apply mem_In in Hin. rewrite Hin in Hk. discriminate Hk.
  - destruct H as [Hknown [Hs Hc]].
    cbn [LegoBlocks.total_blocks LegoBlocks.strength_breakdown
         LegoBlocks.category_breakdown LegoBlocks.top_skills
         LegoBlocks.top_role_types].
    split; [|split; [reflexivity|split; [|split; [|split]]]].
    + apply Forall_forall. intros b Hb. specialize (Hknown b Hb).
      rewrite get_initial_strength in Hknown. apply mem_In.
      destruct (mem _ Cond.levels); congruence.
    + intros l Hl. rewrite Hs, get_initial_strength.
      apply mem_In in Hl. rewrite Hl. reflexivity.
    + intro c. rewrite Hc. cbn [get].
      destruct (Cond.of_category c blocks); reflexivity.
    + apply firstn_le_length.
    + apply firstn_le_length.
Qed.

(** ** Keywords are text of the content *)

Lemma startswith_substring (n : nat) (s : string) :
  startswith (substring 0 n s) s = true.
Proof.
  revert n. induction s as [|c s IH]; intros [|n]; cbn; try reflexivity.
  rewrite Ascii.eqb_refl. apply IH.
Qed.

Lemma startswith_contains (x s : string) :
  startswith x s = true -> contains x s = true.
Proof. intro H. destruct s; cbn [contains]; rewrite H; reflexivity. Qed.

Lemma contains_tail (x : string) (c : ascii) (s : string) :
  contains x s = true -> contains x (String c s) = true.
Proof. intro H. cbn [contains]. rewrite H. apply orb_true_r. Qed.

Lemma match_here_prefix (r : regex) (prev : option ascii) (s m : string) :
  match_here r prev s = Some m -> startswith m s = true.
Proof.
  unfold match_here.
  destruct (rmatch string r prev s _) as [rest|]; [|discriminate].
  intro E. inversion E. apply startswith_substring.
Qed.

Lemma findall_from_contains (r : regex) (s : string) (prev : option ascii)
    (skip : nat) (m : string) :
  In m (findall_from r prev skip s) -> contains m s = true.
Proof.
  revert prev skip. induction s as [|c s IH]; intros prev skip;
    cbn [findall_from]; [intros []|].
  destruct skip as [|n].
  - destruct (match_here r prev (String c s)) as [m'|] eqn:E.
    + intros [<- | H].
      * apply startswith_contains. eapply match_here_prefix. exact E.
      * apply contains_tail. eapply IH. exact H.
    + intro H. apply contains_tail. eapply IH. exact H.
  - intro H. apply contains_tail. eapply IH. exact H.
Qed.

Lemma extend_with_matches_In (text : string) (patterns : list regex)
    (kws : list string) (kw : string) :
  In kw (fold_left (LegoBlocks.extend_with_matches text) patterns kws) ->
  In kw kws \/ contains kw text = true.
Proof.
  revert kws. induction patterns as [|p patterns IH]; intro kws;
    cbn [fold_left]; [auto|].
  intro H. apply IH in H. destruct H as [H | H]; [|now right].
  unfold LegoBlocks.extend_with_matches in H.
  apply in_app_or in H. destruct H as [H | H]; [now left|].
  apply filter_In in H. destruct H as [H _]. right.
  eapply findall_from_contains. exact H.
Qed.

(** X20: the keywords derived from a content are at most 15, and each of
    them is a piece of the content as written: no keyword is invented or
    normalised. *)
Theorem extract_keywords_from_content (text : string) :
  let keywords := LegoBlocks._extract_keywords text in
  (List.length keywords <= 15)%nat
  /\ forall kw, In kw keywords -> contains kw text = true.
Proof.
  cbv zeta. unfold LegoBlocks._extract_keywords.
  split; [apply firstn_le_length|].
  intros kw H. apply firstn_In in H.
  apply extend_with_matches_In in H. destruct H as [H | H]; [|exact H].
  apply extend_with_matches_In in H. destruct H as [[] | H]. exact H.
Qed.

(** * Further properties of the CV generator *)

Lemma slice_to_length_le {A : Type} (n : Z) (l : list A) :
  (0 <= n)%Z -> (Z.of_nat (List.length (slice_to n l)) <= n)%Z.
Proof.
  intro Hn. unfold slice_to. destruct (Z.ltb_spec n 0); [lia|].
  pose proof (firstn_le_length (Z.to_nat n) l). lia.
Qed.

(** X21: [select_blocks] raises only for a job id that is not in the
    store ([ValueError]).  For a known job, with or without an LLM client
    and whatever the client answers, every selected block is a block of the
    store, and for a [max_blocks] that is not negative at most [max_blocks]
    blocks are selected. *)
Theorem select_blocks_outcome (self : CVGenerator) (jid : Z) (db : Session)
    (max_blocks : Z) :
  match select_blocks self jid db max_blocks with
  | Raise e =>
      find (fun j => Z.eqb (job_id j) jid) (jobs db) = None
      /\ e = ValueError ("Job with ID " ++ string_of_Z jid ++ " not found")
  | Ok selected =>
      (exists job, find (fun j => Z.eqb (job_id j) jid) (jobs db) = Some job)
      /\ (forall block, In block selected -> In block (lego_blocks db))
      /\ ((0 <= max_blocks)%Z ->
          (Z.of_nat (List.length selected) <= max_blocks)%Z)
  end.
Proof.
  unfold select_blocks.
  destruct (find _ (jobs db)) as [job|]; [|auto].
  destruct (lego_blocks db) as [|b0 blocks] eqn:Eb.
  - split; [eauto|]. split; [intros b [] | cbn; lia].
  - rewrite <- Eb. clear Eb b0 blocks.
    assert (Hfb : forall b,
              In b (_select_blocks_fallback job (lego_blocks db) max_blocks) ->
              In b (lego_blocks db))
      by (intros b Hb; now apply select_blocks_fallback_In in Hb).
    assert (Hfl : (0 <= max_blocks)%Z ->
              (Z.of_nat (List.length
                 (_select_blocks_fallback job (lego_blocks db) max_blocks))
               <= max_blocks)%Z).
    { intro Hn. unfold _select_blocks_fallback. cbv zeta.
      rewrite length_map. now apply slice_to_length_le. }
    destruct (anthropic_client self) as [client|].
    + split; [eauto|]. unfold _select_blocks_with_llm.
      destruct (client job (lego_blocks db) max_blocks) as [ids|];
        [|split; assumption].
      cbv zeta. split.
      * intros b Hb. apply slice_to_In, filter_In in Hb. tauto.
      * apply slice_to_length_le.
    + split; [eauto|]. split; assumption.
Qed.

Lemma StronglySorted_firstn {A : Type} (R : A -> A -> Prop) (n : nat)
    (l : list A) :
  StronglySorted R l -> StronglySorted R (firstn n l).
Proof.
  intro H. revert n. induction H as [|x l Hs IH Hall]; intros [|n];
    cbn [firstn]; try constructor.
  - apply IH.
  - apply Forall_forall. intros y Hy. apply firstn_In in Hy.
    rewrite Forall_forall in Hall. now apply Hall.
Qed.

Lemma StronglySorted_slice_to {A : Type} (R : A -> A -> Prop) (n : Z)
    (l : list A) :
  StronglySorted R l -> StronglySorted R (slice_to n l).
Proof.
  intro H. unfold slice_to.
  destruct (n <? 0)%Z; now apply StronglySorted_firstn.
Qed.

Lemma StronglySorted_map_on {A B : Type} (R : A -> A -> Prop)
    (R' : B -> B -> Prop) (P : A -> Prop) (f : A -> B) (l : list A) :
  (forall x y, P x -> P y -> R x y -> R' (f x) (f y)) ->
  Forall P l -> StronglySorted R l -> StronglySorted R' (map f l).
Proof.
  intros Hf HP H. induction H as [|x l Hs IH Hall]; cbn [map].
  - constructor.
  - inversion HP as [|? ? Px Pl]; subst. constructor; [now apply IH|].
    apply Forall_forall. intros y Hy. apply in_map_iff in Hy.
    destruct Hy as [z [<- Hz]]. rewrite Forall_forall in Hall, Pl.
    apply Hf; auto.
Qed.

(** X22: the blocks selected by the keyword matcher come best first: the
    keyword score never increases along the selection, and every selected
    block has a positive score. *)
Theorem fallback_best_first (job : Job) (blocks : list LegoBlock)
    (max_blocks : Z) :
  let score := keyword_score (job_keywords job) in
  let selected := _select_blocks_fallback job blocks max_blocks in
  StronglySorted (fun a b => (score b <= score a)%Z) selected
  /\ Forall (fun b => (0 < score b)%Z) selected.
Proof.
  cbv zeta. unfold _select_blocks_fallback. cbv zeta.
  set (kws := job_keywords job).
  set (scored := flat_map _ blocks).
  assert (Hscored : Forall (fun x => fst x = keyword_score kws (snd x)
                                     /\ (0 < fst x)%Z)
                      (slice_to max_blocks
                         (sort_desc (fun x => inject_Z (fst x)) scored))).
  { apply Forall_forall. intros [s b] H. apply slice_to_In in H.
    apply (Permutation_in _ (Permutation_sym (sort_desc_perm _ _))) in H.
    apply scored_blocks_In in H. cbn [fst snd]. tauto. }
  split.
  - eapply (StronglySorted_map_on
              (fun x y => inject_Z (fst y) <= inject_Z (fst x)));
      [|exact Hscored|].
    + intros x y [Ex _] [Ey _] H. rewrite <- Zle_Qle in H. lia.
    + apply StronglySorted_slice_to. apply sort_desc_sorted.
  - apply Forall_forall. intros b Hb. apply in_map_iff in Hb.
    destruct Hb as [[s b'] [E H]]. cbn in E. subst b'.
    rewrite Forall_forall in Hscored. specialize (Hscored _ H).
    cbn [fst snd] in Hscored. lia.
Qed.

Lemma slice_to_nonneg {A : Type} (n : Z) (l : list A) :
  (0 <= n)%Z -> slice_to n l = firstn (Z.to_nat n) l.
Proof.
  intro Hn. unfold slice_to. destruct (Z.ltb_spec n 0); [lia | reflexivity].
Qed.

(** X23: asking the keyword matcher for fewer blocks gives a prefix of
    what asking for more gives: for [0 <= n <= m] the selection of [n]
    blocks is the first [n] of the selection of [m]. *)
Theorem fallback_prefix (job : Job) (blocks : list LegoBlock) (n m : Z) :
  (0 <= n)%Z ->
  (n <= m)%Z ->
  _select_blocks_fallback job blocks n
  = firstn (Z.to_nat n) (_select_blocks_fallback job blocks m).
Proof.
  intros Hn Hm. unfold _select_blocks_fallback. cbv zeta.
  rewrite !slice_to_nonneg by lia.
  rewrite <- firstn_map, <- (firstn_map _ (Z.to_nat m)), firstn_firstn.
  replace (Nat.min (Z.to_nat n) (Z.to_nat m)) with (Z.to_nat n) by lia.
  reflexivity.
Qed.

Lemma fallback_prefix_witness :
  _select_blocks_fallback Sample.backend_job [Sample.pipeline_row] 1
  = firstn (Z.to_nat 1)
      (_select_blocks_fallback Sample.backend_job [Sample.pipeline_row] 6).
Proof.
  apply (fallback_prefix Sample.backend_job [Sample.pipeline_row] 1 6).
  - lia.
  - lia.
Defined.

Lemma scored_blocks_snd (kws : set string) (blocks : list LegoBlock) :
  map snd
    (flat_map (fun block =>
                 if (0 <? keyword_score kws block)%Z
                 then [(keyword_score kws block, block)] else [])
              blocks)
  = filter (fun b => (0 <? keyword_score kws b)%Z) blocks.
Proof.
  induction blocks as [|b blocks IH]; [reflexivity|].
  cbn [flat_map filter]. rewrite map_app, IH.
  destruct (0 <? keyword_score kws b)%Z; reflexivity.
Qed.

(** X24: when [max_blocks] is at least the number of blocks in the store
    nothing is cut: the keyword matcher selects exactly the blocks that
    overlap the job, each as often as the store lists it. *)
Theorem fallback_complete (job : Job) (blocks : list LegoBlock)
    (max_blocks : Z) :
  (Z.of_nat (List.length blocks) <= max_blocks)%Z ->
  let selected := _select_blocks_fallback job blocks max_blocks in
  Permutation selected
    (filter (fun b => (0 <? keyword_score (job_keywords job) b)%Z) blocks)
  /\ forall b, In b selected <-> In b blocks /\ overlaps job b.
Proof.
  intro Hn. cbv zeta.
  assert (Hperm : Permutation (_select_blocks_fallback job blocks max_blocks)
            (filter (fun b => (0 <? keyword_score (job_keywords job) b)%Z)
                    blocks)).
  { unfold _select_blocks_fallback. cbv zeta.
    set (scored := flat_map _ blocks).
    assert (Hlen : (List.length scored <= List.length blocks)%nat).
    { rewrite <- (length_map snd scored). unfold scored.
      rewrite scored_blocks_snd. apply filter_length_le. }
    rewrite slice_to_nonneg by lia.
    rewrite firstn_all2 by (rewrite sort_desc_length; lia).
    rewrite <- scored_blocks_snd. fold scored.
    apply Permutation_map, Permutation_sym, sort_desc_perm. }
  split; [exact Hperm|].
  intro b. split.
  - intro H. apply (Permutation_in _ Hperm), filter_In in H.
    destruct H as [Hb Hs]. split; [exact Hb|].
    apply keyword_score_positive. now apply Z.ltb_lt.
  - intros [Hb Ho]. apply (Permutation_in _ (Permutation_sym Hperm)).
    apply filter_In. split; [exact Hb|].
    apply Z.ltb_lt. now apply keyword_score_positive.
Qed.

Lemma fallback_complete_witness :
  let selected :=
    _select_blocks_fallback Sample.backend_job [Sample.pipeline_row] 6 in
  Permutation selected
    (filter (fun b =>
               (0 <? keyword_score (job_keywords Sample.backend_job) b)%Z)
            [Sample.pipeline_row])
  /\ forall b, In b selected <->
       In b [Sample.pipeline_row] /\ overlaps Sample.backend_job b.
Proof.
  apply (fallback_complete Sample.backend_job [Sample.pipeline_row] 6).
  simpl; lia.
Defined.

Lemma fold_cond_add_ge {X : Type} (p : X -> bool) (w : Q) (l : list X)
    (s : Q) :
  0 <= w -> s <= fold_left (fun s x => if p x then s + w else s) l s.
Proof.
  intro Hw. revert s. induction l as [|x l IH]; intro s; cbn [fold_left].
  - lra.
  - specialize (IH (if p x then s + w else s)).
    destruct (p x); lra.
Qed.

Lemma ranking_score_nonneg (kws : set string) (block : LegoBlock) :
  0 <= CvGenerator.ranking_score kws block.
Proof.
  unfold CvGenerator.ranking_score. cbv zeta.
  eapply Qle_trans; [|apply fold_cond_add_ge; lra].
  eapply Qle_trans; [|apply fold_cond_add_ge; lra].
  apply fold_cond_add_ge. lra.
Qed.

(** X25: the ranking report raises only for a job id that is not in the
    store ([ValueError]).  For a known job it lists every block of the
    store once, by id, with a score between 0 and 100, best first. *)
Theorem ranking_report_outcome (jid : Z) (db : Session) :
  match CvGenerator.rank_blocks jid db with
  | Raise e =>
      find (fun j => Z.eqb (job_id j) jid) (jobs db) = None
      /\ e = ValueError ("Job with ID " ++ string_of_Z jid ++ " not found")
  | Ok ranked =>
      (exists job, find (fun j => Z.eqb (job_id j) jid) (jobs db) = Some job)
      /\ Permutation (map fst ranked) (map id (lego_blocks db))
      /\ Forall (fun x => 0 <= snd x /\ snd x <= 100) ranked
      /\ descending ranked
  end.
Proof.
  unfold CvGenerator.rank_blocks.
  destruct (find _ (jobs db)) as [job|]; [|auto].
  destruct (lego_blocks db) as [|b0 blocks] eqn:Eb.
  - split; [eauto|]. split; [apply perm_nil|].
    split; constructor.
  - rewrite <- Eb. clear Eb b0 blocks. cbv zeta.
    set (ranked := map _ (lego_blocks db)).
    split; [eauto|]. split; [|split].
    + eapply perm_trans;
        [apply Permutation_map, Permutation_sym, sort_desc_perm|].
      unfold ranked. rewrite map_map. cbn [fst]. apply Permutation_refl.
    + apply (Permutation_Forall (sort_desc_perm snd ranked)).
      apply Forall_forall. intros [i s] H. unfold ranked in H.
      apply in_map_iff in H. destruct H as [b [E _]].
      inversion E; subst. cbn [snd].
      pose proof (ranking_score_nonneg (CvGenerator.ranking_keywords job) b).
      split; [apply Q.min_glb; lra | apply Q.le_min_l].
    + apply sort_desc_sorted.
Qed.

(** ** LaTeX escaping *)

Lemma escape_latex_steps (text : string) :
  exists t, CvGenerator._escape_latex text
            = replace_char "\" "\textbackslash{}" t.
Proof.
  unfold CvGenerator._escape_latex, CvGenerator.replacements.
  cbn [fold_left fst snd]. eexists. reflexivity.
Qed.

Lemma replace_backslash_spelled (t : string) :
  Cond.backslashes_spelled (replace_char "\" "\textbackslash{}" t) = true.
Proof.
  induction t as [|c t IH]; [reflexivity|].
  cbn [replace_char]. destruct (Ascii.eqb c "\") eqn:E.
  - cbn. exact IH.
  - cbn [Cond.backslashes_spelled]. rewrite E, IH. reflexivity.
Qed.

Lemma spelled_no_escape (e : ascii) (s : string) :
  Ascii.eqb e "t" = false ->
  Cond.backslashes_spelled s = true ->
  contains (String "\" (String e EmptyString)) s = false.
Proof.
  intros He. induction s as [|c s IH]; intro H; [reflexivity|].
  cbn [Cond.backslashes_spelled] in H. apply andb_true_iff in H.
  destruct H as [Hc Hs]. cbn [contains startswith].
  rewrite (IH Hs), orb_false_r.
  rewrite (Ascii.eqb_sym "\" c).
  destruct (Ascii.eqb c "\"); [|reflexivity]. cbn [andb].
  destruct s as [|d s]; [reflexivity|].
  cbn [startswith] in Hc. apply andb_true_iff in Hc. destruct Hc as [Hd _].
  apply Ascii.eqb_eq in Hd. subst d. rewrite He. reflexivity.
Qed.

(** X26: in the output of [_escape_latex] every backslash starts the
    command [\textbackslash{}]: the backslash is replaced last, after the
    escapes that introduce one.  So none of the seven two-character escapes
    of its table ever appears in the output. *)
Theorem escape_latex_loses_escapes (text : string) :
  let out := CvGenerator._escape_latex text in
  Cond.backslashes_spelled out = true
  /\ forallb (fun escape => negb (contains escape out))
             ["\&"; "\%"; "\$"; "\#"; "\_"; "\{"; "\}"] = true.
Proof.
  cbv zeta. destruct (escape_latex_steps text) as [t ->].
  pose proof (replace_backslash_spelled t) as H.
  split; [exact H|]. cbn [forallb].
  rewrite !spelled_no_escape by (reflexivity || exact H). reflexivity.
Qed.

Lemma replace_char_plain (old : ascii) (new s : string) :
  Cond.special old = true -> Cond.plain s = true ->
  replace_char old new s = s.
Proof.
  intros Ho. induction s as [|c s IH]; intro H; [reflexivity|].
  cbn [Cond.plain] in H. apply andb_true_iff in H. destruct H as [Hc Hs].
  cbn [replace_char]. destruct (Ascii.eqb c old) eqn:E.
  - apply Ascii.eqb_eq in E. subst c. rewrite Ho in Hc. discriminate Hc.
  - now rewrite IH.
Qed.

(** X27: a text without any of the ten characters of the table is
    returned unchanged. *)
Theorem escape_latex_plain (text : string) :
  Cond.plain text = true -> CvGenerator._escape_latex text = text.
Proof.
  intro H. unfold CvGenerator._escape_latex, CvGenerator.replacements.
  cbn [fold_left fst snd].
  repeat rewrite (replace_char_plain _ _ text) by (reflexivity || exact H).
  reflexivity.
Qed.

Lemma escape_latex_plain_witness :
  CvGenerator._escape_latex "Built a pipeline" = "Built a pipeline".
Proof.
  apply (escape_latex_plain "Built a pipeline"). reflexivity.
Defined.
